(** * The LangGraph service of the virtual IT company

    A shallow embedding of [langgraph-service/app.py]: the [ProjectState]
    record, the three workflow nodes [analyze_requirements], [create_plan]
    and [execute_tasks], the compiled graph that runs them in sequence, and
    the HTTP endpoints that persist the result in Redis (an expiring cache)
    and in the MongoDB collection [workflows].

    Python dictionaries are finite maps with string keys ([gmap string]),
    Python lists are lists, and Python integers are [Z] or [nat] (they do
    not overflow).  Everything the service obtains from outside itself --
    the language model, the clock, the two stores' failures, the JSON codec
    -- is an input of the model, named after the call that reads it. *)

From Stdlib Require Import ZArith Lia Ascii String.
From stdpp Require Import base strings gmap list sorting pretty.

Set Warnings "-register-all".

Open Scope string_scope.
Open Scope Z_scope.

(** ** Python values

    The values that reach [Dict[str, Any]] fields come from JSON request
    bodies and from the nodes themselves: [None], booleans, integers,
    strings, lists and dictionaries keyed by strings.  (Floating-point
    numbers are left out; no node reads or computes one.) *)

Inductive pyval : Type :=
  | PNone
  | PBool (b : bool)
  | PInt (z : Z)
  | PStr (s : string)
  | PList (l : list pyval)
  | PDict (d : gmap string pyval).

(** [v == "..."] for an arbitrary value [v]: only a string can be equal to a
    string. *)
Definition py_eq_str (v : pyval) (s : string) : bool :=
  match v with
  | PStr s' => bool_decide (s' = s)
  | _ => false
  end.

(** [str.split(sep)] for a one-character separator: every occurrence splits,
    empty pieces are kept, and the result is never empty.  Strings are
    sequences of bytes here; splitting the UTF-8 encoding at an ASCII
    separator splits the text at the same places. *)
Fixpoint split_on (sep : ascii) (s : string) : list string :=
  match s with
  | EmptyString => [EmptyString]
  | String c rest =>
      if bool_decide (c = sep) then EmptyString :: split_on sep rest
      else match split_on sep rest with
           | piece :: pieces => String c piece :: pieces
           | [] => [String c EmptyString]
           end
  end.

(** [f"{n}"] for an integer. *)
Definition str_int (n : Z) : string := pretty n.

(** ** Pydantic models *)

Record ProjectState : Type := {
  project_id : string;
  requirements : string;
  status : string;
  current_phase : string;
  tasks : list (gmap string pyval);
  errors : list string;
  context : gmap string pyval;
  metadata : gmap string pyval
}.

(** A [datetime] is the number of microseconds since the epoch. *)
Definition datetime : Type := Z.

Record WorkflowRequest : Type := {
  req_project_id : string;
  req_requirements : string;
  req_project_type : string;
  req_priority : string;
  req_deadline : option datetime;
  req_context : option (gmap string pyval)
}.

Record WorkflowResponse : Type := {
  resp_workflow_id : string;
  resp_status : string;
  resp_state : ProjectState;
  resp_next_steps : list string
}.

(** Assignments to one attribute of a state. *)
Definition set_status (v : string) (s : ProjectState) : ProjectState :=
  {| project_id := project_id s; requirements := requirements s;
     status := v; current_phase := current_phase s; tasks := tasks s;
     errors := errors s; context := context s; metadata := metadata s |}.

Definition set_current_phase (v : string) (s : ProjectState) : ProjectState :=
  {| project_id := project_id s; requirements := requirements s;
     status := status s; current_phase := v; tasks := tasks s;
     errors := errors s; context := context s; metadata := metadata s |}.

Definition set_tasks (v : list (gmap string pyval)) (s : ProjectState)
  : ProjectState :=
  {| project_id := project_id s; requirements := requirements s;
     status := status s; current_phase := current_phase s; tasks := v;
     errors := errors s; context := context s; metadata := metadata s |}.

(** [state.errors.append(msg)] *)
Definition append_error (msg : string) (s : ProjectState) : ProjectState :=
  {| project_id := project_id s; requirements := requirements s;
     status := status s; current_phase := current_phase s; tasks := tasks s;
     errors := errors s ++ [msg]; context := context s;
     metadata := metadata s |}.

(** [state.context[k] = v] *)
Definition set_context (k : string) (v : pyval) (s : ProjectState)
  : ProjectState :=
  {| project_id := project_id s; requirements := requirements s;
     status := status s; current_phase := current_phase s; tasks := tasks s;
     errors := errors s; context := <[k := v]> (context s);
     metadata := metadata s |}.

(** ** Results and exceptions

    A computation either returns or raises.  Library exceptions are kept as
    their message, the text [str(e)] gives. *)

Inductive result (E A : Type) : Type :=
  | Returned (a : A)
  | Raised (e : E).
Arguments Returned {E A} a.
Arguments Raised {E A} e.

(** ** The language model

    [get_llm] builds a client and [ainvoke] calls it.  Both are library
    code: the client's constructor may raise (for instance without an API
    key) and so may the call.  The model takes their outcomes as given, one
    pair per node that talks to the model.

    An exception, here and for the stores, is an [Exception]: that is what
    every handler of the service catches ([except Exception]).  What is
    raised outside that class -- [asyncio.CancelledError] when the task of
    the request is cancelled at an [await], [KeyboardInterrupt],
    [SystemExit] -- is caught by no handler, ends the request in the server
    and is not an outcome of the model. *)

Inductive llm_outcome : Type :=
  | LlmResponse (content : string)
  | LlmError (msg : string).

Record llm_env : Type := {
  construct_error : option string;   (* the client's constructor raises *)
  ainvoke : llm_outcome              (* outcome of [await llm.ainvoke(prompt)] *)
}.

Inductive llm_client : Type := ChatOpenAI | ChatAnthropic.

Definition get_llm (le : llm_env) (provider model : string)
  : result string llm_client :=
  if bool_decide (provider = "openai") then
    match construct_error le with
    | None => Returned ChatOpenAI
    | Some e => Raised e
    end
  else if bool_decide (provider = "anthropic") then
    match construct_error le with
    | None => Returned ChatAnthropic
    | Some e => Raised e
    end
  else Raised ("Unsupported provider: " +:+ provider).

(** ** Workflow nodes *)

Definition analysis_of (reqs : string) : gmap string pyval :=
  {[ "complexity" := PInt 7;
     "technologies" := PList [PStr "React"; PStr "Node.js"; PStr "MongoDB"];
     "features" := PList (PStr <$> split_on "." reqs);
     "challenges" := PList [PStr "User authentication"; PStr "Real-time updates"];
     "estimated_hours" := PInt 160 ]}.

(** The client is built before the [try]; an exception there leaves the
    node.  Inside the [try] only the call to the model can raise, and
    [except Exception] turns what it raises into a failed state; a
    cancellation of the task at the [await] is no [Exception] and is not
    modelled (see [llm_outcome]).  [create_plan] is built the same way. *)
Definition analyze_requirements (le : llm_env) (state : ProjectState)
  : result string ProjectState :=
  match get_llm le "openai" "gpt-4" with
  | Raised e => Raised e
  | Returned _ =>
      match ainvoke le with
      | LlmResponse _ =>
          Returned
            (set_current_phase "planning"
               (set_status "analyzed"
                  (set_context "analysis"
                     (PDict (analysis_of (requirements state))) state)))
      | LlmError e =>
          Returned
            (set_status "failed"
               (append_error ("Analysis failed: " +:+ e) state))
      end
  end.

Definition phase (name duration : string) (n : Z) : pyval :=
  PDict {[ "name" := PStr name; "duration" := PStr duration;
           "tasks" := PInt n ]}.

Definition plan : gmap string pyval :=
  {[ "phases" := PList [ phase "Setup" "1 week" 3;
                         phase "Development" "4 weeks" 12;
                         phase "Testing" "2 weeks" 6;
                         phase "Deployment" "1 week" 2 ];
     "total_tasks" := PInt 23;
     "estimated_duration" := PStr "8 weeks" ]}.

(** The task built by the loop body for index [i] of [range(5)]. *)
Definition sample_task (i : nat) : gmap string pyval :=
  {[ "id" := PStr ("task_" +:+ str_int (Z.of_nat i + 1));
     "title" := PStr ("Implement feature " +:+ str_int (Z.of_nat i + 1));
     "type" := PStr "code";
     "priority" := PStr "medium";
     "status" := PStr "pending";
     "estimated_hours" := PInt 8 ]}.

Definition sample_tasks : list (gmap string pyval) := sample_task <$> seq 0 5.

(** [json.dumps(analysis, indent=2)] in the prompt is evaluated before the
    [try]; it cannot raise on the values of [pyval], which are all JSON
    serialisable, so the prompt is not modelled. *)
Definition create_plan (le : llm_env) (state : ProjectState)
  : result string ProjectState :=
  if bool_decide (status state = "failed") then Returned state
  else
    match get_llm le "openai" "gpt-4" with
    | Raised e => Raised e
    | Returned _ =>
        match ainvoke le with
        | LlmResponse _ =>
            Returned
              (set_current_phase "development"
                 (set_status "planned"
                    (set_context "plan" (PDict plan)
                       (set_tasks sample_tasks state))))
        | LlmError e =>
            Returned
              (set_status "failed"
                 (append_error ("Planning failed: " +:+ e) state))
        end
    end.

(** The loop of [execute_tasks].  It mutates the task dictionaries in place,
    so what it has already assigned stays assigned when a later task raises
    [KeyError] for a missing ["status"] key. *)
Inductive loop_result : Type :=
  | LoopEnd (ts : list (gmap string pyval)) (executed_tasks : nat)
  | LoopRaise (ts : list (gmap string pyval)) (e : string).

Definition loop_cons (t : gmap string pyval) (r : loop_result) : loop_result :=
  match r with
  | LoopEnd ts n => LoopEnd (t :: ts) n
  | LoopRaise ts e => LoopRaise (t :: ts) e
  end.

Definition assign (executed_tasks : nat) (task : gmap string pyval)
  : gmap string pyval :=
  <["assigned_agent" :=
      PStr ("agent_" +:+ str_int (Z.of_nat executed_tasks `mod` 3 + 1))]>
    (<["status" := PStr "assigned"]> task).

Fixpoint assign_loop (executed_tasks : nat) (ts : list (gmap string pyval))
  : loop_result :=
  match ts with
  | [] => LoopEnd [] executed_tasks
  | task :: rest =>
      match task !! "status" with
      | None => LoopRaise (task :: rest) "'status'"
      | Some v =>
          if py_eq_str v "pending" then
            let executed_tasks' := S executed_tasks in
            if bool_decide (2 ≤ executed_tasks')%nat
            then LoopEnd (assign executed_tasks task :: rest) executed_tasks'
            else loop_cons (assign executed_tasks task)
                           (assign_loop executed_tasks' rest)
          else loop_cons task (assign_loop executed_tasks rest)
      end
  end.

Definition execution_of (executed_tasks : nat) (start_time : string)
  : gmap string pyval :=
  {[ "tasks_assigned" := PInt (Z.of_nat executed_tasks);
     "agents_used" := PInt (3 `min` Z.of_nat executed_tasks);
     "start_time" := PStr start_time ]}.

(** [start_time] is [datetime.now().isoformat()], read when the loop is
    over. *)
Definition execute_tasks (start_time : string) (state : ProjectState)
  : result string ProjectState :=
  if bool_decide (status state = "failed") then Returned state
  else
    match assign_loop 0 (tasks state) with
    | LoopEnd ts executed_tasks =>
        Returned
          (set_current_phase "development"
             (set_status "executing"
                (set_context "execution"
                   (PDict (execution_of executed_tasks start_time))
                   (set_tasks ts state))))
    | LoopRaise ts e =>
        Returned
          (set_status "failed"
             (append_error ("Execution failed: " +:+ e)
                (set_tasks ts state)))
    end.

(** ** The workflow graph

    [create_project_workflow] registers the three nodes, makes ["analyze"]
    the entry point and chains ["analyze"], ["plan"], ["execute"], [END].
    Every run of the graph reads its own outcomes of the language model and
    its own clock. *)

Record graph_env : Type := {
  analyze_llm : llm_env;      (* the model as seen by [analyze_requirements] *)
  plan_llm : llm_env;         (* the model as seen by [create_plan] *)
  execute_now : string        (* [datetime.now().isoformat()] in [execute_tasks] *)
}.

Definition node : Type := graph_env → ProjectState → result string ProjectState.

Record StateGraph : Type := {
  nodes : list (string * node);
  entry_point : string;
  edges : list (string * string)
}.

Definition END : string := "__end__".

Definition add_node (name : string) (f : node) (g : StateGraph) : StateGraph :=
  {| nodes := nodes g ++ [(name, f)]; entry_point := entry_point g;
     edges := edges g |}.

Definition set_entry_point (name : string) (g : StateGraph) : StateGraph :=
  {| nodes := nodes g; entry_point := name; edges := edges g |}.

Definition add_edge (src dst : string) (g : StateGraph) : StateGraph :=
  {| nodes := nodes g; entry_point := entry_point g;
     edges := edges g ++ [(src, dst)] |}.

Definition create_project_workflow : StateGraph :=
  add_edge "execute" END
    (add_edge "plan" "execute"
       (add_edge "analyze" "plan"
          (set_entry_point "analyze"
             (add_node "execute" (λ ge, execute_tasks (execute_now ge))
                (add_node "plan" (λ ge, create_plan (plan_llm ge))
                   (add_node "analyze"
                      (λ ge, analyze_requirements (analyze_llm ge))
                      {| nodes := []; entry_point := END; edges := [] |})))))).

Fixpoint assoc {A} (k : string) (l : list (string * A)) : option A :=
  match l with
  | [] => None
  | (k', a) :: l' => if bool_decide (k' = k) then Some a else assoc k l'
  end.

(** The graph library gives up after [recursion_limit] steps. *)
Definition recursion_limit : nat := 25.

Fixpoint run_from (steps : nat) (g : StateGraph) (ge : graph_env)
    (at_node : string) (state : ProjectState) : result string ProjectState :=
  if bool_decide (at_node = END) then Returned state
  else
    match steps with
    | O => Raised "Recursion limit reached"
    | S steps' =>
        match assoc at_node (nodes g) with
        | None => Raised ("unknown node " +:+ at_node)
        | Some f =>
            match f ge state with
            | Raised e => Raised e
            | Returned state' =>
                match assoc at_node (edges g) with
                | None => Returned state'
                | Some next => run_from steps' g ge next state'
                end
            end
        end
    end.

(** [await workflow.ainvoke(state)] *)
Definition workflow_ainvoke (g : StateGraph) (ge : graph_env)
    (state : ProjectState) : result string ProjectState :=
  run_from recursion_limit g ge (entry_point g) state.

(** ** The two stores

    Redis maps a key to the bytes stored with [setex] and their time to
    live; an expired key is a key that is no longer there.  The collection
    [workflows] is the list of its documents in insertion order. *)

Record cached : Type := { cached_value : string; cached_ttl : Z }.

Inductive object_id : Type := ObjectId (hex : string).

(** [str(oid)] *)
Definition str_object_id (oid : object_id) : string :=
  match oid with ObjectId hex => hex end.

Record workflow_doc : Type := {
  doc_id : object_id;         (* the key [_id] *)
  workflow_id : string;
  doc_project_id : string;
  state : ProjectState;
  created_at : datetime;
  updated_at : datetime
}.

Record world : Type := {
  redis : gmap string cached;
  workflows : list workflow_doc
}.

(** What one request meets outside the service: the language model and the
    clock at every place that reads them, the identifier MongoDB gives a
    new document, and for every call to a store the exception it raises, if
    any. *)
Record env : Type := {
  graph : graph_env;
  now_metadata : datetime;
  now_workflow_id : datetime;
  now_created_at : datetime;
  now_updated_at : datetime;
  inserted_id : object_id;
  setex_error : option string;
  get_error : option string;
  insert_one_error : option string;
  find_one_error : option string;
  update_one_error : option string;
  find_error : option string;
  count_documents_error : option string
}.

Inductive exn : Type :=
  | Exception (msg : string)
  | HTTPException (status_code : Z) (detail : string).

(** [str(e)] *)
Definition str_exn (e : exn) : string :=
  match e with
  | Exception msg => msg
  | HTTPException code detail => str_int code +:+ ": " +:+ detail
  end.

(** Requests run in the state monad over [world] with exceptions; what was
    written before an exception stays written. *)
Definition M (A : Type) : Type := world → result exn A * world.

Definition ret {A} (a : A) : M A := λ w, (Returned a, w).
Definition raise {A} (e : exn) : M A := λ w, (Raised e, w).
Definition bind {A B} (m : M A) (k : A → M B) : M B :=
  λ w, match m w with
       | (Returned a, w') => k a w'
       | (Raised e, w') => (Raised e, w')
       end.
Definition try_except {A} (m : M A) (handler : exn → M A) : M A :=
  λ w, match m w with
       | (Returned a, w') => (Returned a, w')
       | (Raised e, w') => handler e w'
       end.
Definition lift {A} (r : result string A) : M A :=
  match r with
  | Returned a => ret a
  | Raised msg => raise (Exception msg)
  end.

Notation "'let*' x := m 'in' k" := (bind m (λ x, k))
  (at level 10, x name, m at level 100, k at level 200,
   format "'[v' 'let*'  x  :=  m  'in'  '/' k ']'").
Notation "'run' m 'in' k" := (bind m (λ _, k))
  (at level 10, m at level 100, k at level 200,
   format "'[v' 'run'  m  'in'  '/' k ']'").

(** A call to a store: it raises what the environment says, or acts. *)
Definition store_call {A} (error : option string) (act : world → A * world)
  : M A :=
  λ w, match error with
       | Some msg => (Raised (Exception msg), w)
       | None => let '(a, w') := act w in (Returned a, w')
       end.

Definition redis_setex (e : env) (key : string) (ttl : Z) (value : string)
  : M unit :=
  store_call (setex_error e)
    (λ w, (tt, {| redis := <[key := {| cached_value := value;
                                        cached_ttl := ttl |}]> (redis w);
                  workflows := workflows w |})).

Definition redis_get (e : env) (key : string) : M (option string) :=
  store_call (get_error e) (λ w, (cached_value <$> redis w !! key, w)).

(** The first document with the given [workflow_id]. *)
Fixpoint first_with_id (wid : string) (docs : list workflow_doc)
  : option workflow_doc :=
  match docs with
  | [] => None
  | d :: docs' =>
      if bool_decide (workflow_id d = wid) then Some d
      else first_with_id wid docs'
  end.

Definition find_one (e : env) (wid : string) : M (option workflow_doc) :=
  store_call (find_one_error e) (λ w, (first_with_id wid (workflows w), w)).

(** MongoDB keeps a date as a whole number of milliseconds since the
    epoch: the driver drops what a [datetime] has below the millisecond. *)
Definition bson_datetime (d : datetime) : datetime := d `div` 1000 * 1000.

Definition insert_one (e : env) (wid pid : string) (st : ProjectState)
    (created updated : datetime) : M unit :=
  store_call (insert_one_error e)
    (λ w, (tt, {| redis := redis w;
                  workflows := workflows w ++
                    [{| doc_id := inserted_id e; workflow_id := wid;
                        doc_project_id := pid; state := st;
                        created_at := bson_datetime created;
                        updated_at := bson_datetime updated |}] |})).

(** [$set] of [state] and [updated_at] on the first matching document. *)
Fixpoint set_first (wid : string) (st : ProjectState) (updated : datetime)
    (docs : list workflow_doc) : list workflow_doc :=
  match docs with
  | [] => []
  | d :: docs' =>
      if bool_decide (workflow_id d = wid)
      then {| doc_id := doc_id d; workflow_id := workflow_id d;
              doc_project_id := doc_project_id d; state := st;
              created_at := created_at d; updated_at := updated |} :: docs'
      else d :: set_first wid st updated docs'
  end.

Definition update_one (e : env) (wid : string) (st : ProjectState)
    (updated : datetime) : M unit :=
  store_call (update_one_error e)
    (λ w, (tt, {| redis := redis w;
                  workflows := set_first wid st (bson_datetime updated)
                                 (workflows w) |})).

Definition count_documents (e : env) : M Z :=
  store_call (count_documents_error e)
    (λ w, (Z.of_nat (length (workflows w)), w)).

(** The cursor [find().sort("created_at", -1).skip(offset).limit(limit)] and
    [to_list(length)], as the drivers define them: [skip] refuses a negative
    number when the cursor is built, [limit] takes 0 for no limit and a
    negative number for its absolute value, [to_list] refuses a negative
    length before anything is read and then keeps at most [length]
    documents.  The order of documents with equal [created_at] is the
    server's choice, which may differ from one query to the next; the model
    sorts stably.  Where the stored dates all differ there is one sorted
    order only and the choice does not arise. *)
Definition newer_first (d1 d2 : workflow_doc) : Prop :=
  created_at d2 ≤ created_at d1.

Global Instance newer_first_dec d1 d2 : Decision (newer_first d1 d2).
Proof. unfold newer_first. apply _. Defined.

Definition cursor_limit (limit : Z) (docs : list workflow_doc)
  : list workflow_doc :=
  if bool_decide (limit = 0) then docs else take (Z.abs_nat limit) docs.

Definition find_sort_skip_limit (offset limit : Z) (docs : list workflow_doc)
  : list workflow_doc :=
  cursor_limit limit (drop (Z.to_nat offset) (merge_sort newer_first docs)).

Definition find_to_list (e : env) (offset limit length : Z)
  : M (list workflow_doc) :=
  if bool_decide (offset < 0) then raise (Exception "skip must be >= 0")
  else if bool_decide (length < 0)
  then raise (Exception "length must be non-negative")
  else store_call (find_error e)
         (λ w, (take (Z.to_nat length)
                  (find_sort_skip_limit offset limit (workflows w)), w)).

(** ** API endpoints *)

(** The dictionary of a state: [state.dict()], and what the graph returns. *)
Definition state_dict (s : ProjectState) : pyval :=
  PDict {[ "project_id" := PStr (project_id s);
           "requirements" := PStr (requirements s);
           "status" := PStr (status s);
           "current_phase" := PStr (current_phase s);
           "tasks" := PList (PDict <$> tasks s);
           "errors" := PList (PStr <$> errors s);
           "context" := PDict (context s);
           "metadata" := PDict (metadata s) ]}.

(** A document of the listing, with [_id] turned into text. *)
Record listed_doc : Type := {
  listed_id : string;
  listed_workflow_id : string;
  listed_project_id : string;
  listed_state : ProjectState;
  listed_created_at : datetime;
  listed_updated_at : datetime
}.

Definition stringify_id (d : workflow_doc) : listed_doc :=
  {| listed_id := str_object_id (doc_id d);
     listed_workflow_id := workflow_id d;
     listed_project_id := doc_project_id d;
     listed_state := state d;
     listed_created_at := created_at d;
     listed_updated_at := updated_at d |}.

Record workflow_page : Type := {
  page_workflows : list listed_doc;
  page_total : Z;
  page_offset : Z;
  page_limit : Z
}.

Record continued : Type := {
  continued_status : string;
  continued_state : ProjectState
}.

(** Library functions the endpoints call and the model does not define:
    the rendering of a [datetime] and the JSON codec ([json.dumps] with
    [default=str], total on [pyval]; [json.loads], which may raise). *)
Record pylib : Type := {
  isoformat : datetime → string;
  json_dumps : pyval → string;
  json_loads : string → result string pyval
}.

Section Endpoints.
Context (lib : pylib).

(** [int(d.timestamp())]: the whole seconds of the reading.  The code goes
    through the double that [timestamp()] returns; for readings from the
    epoch up to [2 ^ 34] seconds after it (the year 2514) that double is
    too close to the reading to reach the next second, and the whole
    seconds are these. *)
Definition timestamp_int (d : datetime) : Z := d `quot` 1000000.

Definition initial_state_of (e : env) (request : WorkflowRequest)
  : ProjectState :=
  {| project_id := req_project_id request;
     requirements := req_requirements request;
     status := "draft";
     current_phase := "analyzing";
     tasks := [];
     errors := [];
     context := default ∅ (req_context request);
     metadata :=
       {[ "project_type" := PStr (req_project_type request);
          "priority" := PStr (req_priority request);
          "deadline" := match req_deadline request with
                        | Some d => PStr (isoformat lib d)
                        | None => PNone
                        end;
          "created_at" := PStr (isoformat lib (now_metadata e)) ]} |}.

Definition next_steps_of (st : string) : list string :=
  if bool_decide (st = "executing")
  then ["Monitor task execution"; "Assign agents to pending tasks"]
  else if bool_decide (st = "failed")
  then ["Review errors"; "Retry failed steps"]
  else ["Continue to next phase"].

Definition start_workflow (e : env) (request : WorkflowRequest)
  : M WorkflowResponse :=
  try_except
    (let* result :=
       lift (workflow_ainvoke create_project_workflow (graph e)
               (initial_state_of e request)) in
     let wid := "workflow_" +:+ req_project_id request +:+ "_" +:+
                str_int (timestamp_int (now_workflow_id e)) in
     run redis_setex e wid 3600 (json_dumps lib (state_dict result)) in
     run insert_one e wid (req_project_id request) result
           (now_created_at e) (now_updated_at e) in
     ret {| resp_workflow_id := wid;
            resp_status := status result;
            resp_state := result;
            resp_next_steps := next_steps_of (status result) |})
    (λ ex, raise (HTTPException 500 ("Workflow failed: " +:+ str_exn ex))).

(** [except HTTPException: raise], then [except Exception as e]. *)
Definition reraise_http {A} (prefix : string) (ex : exn) : M A :=
  match ex with
  | HTTPException code detail => raise (HTTPException code detail)
  | Exception msg => raise (HTTPException 500 (prefix +:+ msg))
  end.

Definition get_workflow_status (e : env) (wid : string) : M pyval :=
  try_except
    (let* cached_state := redis_get e wid in
     match cached_state with
     | Some bytes =>
         if bool_decide (bytes ≠ EmptyString) then lift (json_loads lib bytes)
         else
           let* workflow_doc := find_one e wid in
           match workflow_doc with
           | Some d => ret (state_dict (state d))
           | None => raise (HTTPException 404 "Workflow not found")
           end
     | None =>
         let* workflow_doc := find_one e wid in
         match workflow_doc with
         | Some d => ret (state_dict (state d))
         | None => raise (HTTPException 404 "Workflow not found")
         end
     end)
    (reraise_http "Error retrieving workflow: ").

Definition continue_workflow (e : env) (wid : string) : M continued :=
  try_except
    (let* workflow_doc := find_one e wid in
     match workflow_doc with
     | None => raise (HTTPException 404 "Workflow not found")
     | Some d =>
         let* result :=
           lift (workflow_ainvoke create_project_workflow (graph e)
                   (state d)) in
         run update_one e wid result (now_updated_at e) in
         run redis_setex e wid 3600 (json_dumps lib (state_dict result)) in
         ret {| continued_status := "continued";
                continued_state := result |}
     end)
    (reraise_http "Error continuing workflow: ").

Definition list_workflows (e : env) (limit offset : Z) : M workflow_page :=
  try_except
    (let* docs := find_to_list e offset limit limit in
     let* total := count_documents e in
     ret {| page_workflows := stringify_id <$> docs;
            page_total := total;
            page_offset := offset;
            page_limit := limit |})
    (λ ex, raise (HTTPException 500
                    ("Error listing workflows: " +:+ str_exn ex))).

End Endpoints.

(** ** Notions used to state the properties *)

(** Sequencing of nodes: the next node runs on what the previous returned. *)
Definition then_node (r : result string ProjectState)
    (f : ProjectState → result string ProjectState)
  : result string ProjectState :=
  match r with
  | Returned s => f s
  | Raised e => Raised e
  end.

(** The tasks that the loop of [execute_tasks] would still assign. *)
Definition is_pending (t : gmap string pyval) : bool :=
  match t !! "status" with
  | Some v => py_eq_str v "pending"
  | None => false
  end.

Definition count_pending (ts : list (gmap string pyval)) : nat :=
  length (filter (λ t, is_pending t = true) ts).

(** The five tasks of [create_plan] once the loop of [execute_tasks] has
    run over them. *)
Definition assigned_sample_tasks : list (gmap string pyval) :=
  [assign 0 (sample_task 0); assign 1 (sample_task 1);
   sample_task 2; sample_task 3; sample_task 4].

(** The state after a pass in which the model answers both nodes. *)
Definition pass_result (ge : graph_env) (s : ProjectState) : ProjectState :=
  set_current_phase "development"
    (set_status "executing"
       (set_context "execution" (PDict (execution_of 2 (execute_now ge)))
          (set_tasks assigned_sample_tasks
             (set_current_phase "development"
                (set_status "planned"
                   (set_context "plan" (PDict plan)
                      (set_tasks sample_tasks
                         (set_current_phase "planning"
                            (set_status "analyzed"
                               (set_context "analysis"
                                  (PDict (analysis_of (requirements s)))
                                  s)))))))))).

(** The progression of the status, as a rank. *)
Definition status_rank (st : string) : option nat :=
  if bool_decide (st = "draft") then Some 0%nat
  else if bool_decide (st = "analyzed") then Some 1%nat
  else if bool_decide (st = "planned") then Some 2%nat
  else if bool_decide (st = "executing") then Some 3%nat
  else None.

(** The identifier, the Redis entry and the document that [start_workflow]
    and [continue_workflow] write. *)
Definition start_workflow_id (e : env) (request : WorkflowRequest) : string :=
  "workflow_" +:+ req_project_id request +:+ "_" +:+
  str_int (timestamp_int (now_workflow_id e)).

Definition cache_entry (lib : pylib) (result : ProjectState) : cached :=
  {| cached_value := json_dumps lib (state_dict result);
     cached_ttl := 3600 |}.

Definition new_doc (e : env) (request : WorkflowRequest)
    (result : ProjectState) : workflow_doc :=
  {| doc_id := inserted_id e;
     workflow_id := start_workflow_id e request;
     doc_project_id := req_project_id request;
     state := result;
     created_at := bson_datetime (now_created_at e);
     updated_at := bson_datetime (now_updated_at e) |}.

(** The expiry of a key of Redis: the key is gone, nothing else changes. *)
Definition expire (wid : string) (w : world) : world :=
  {| redis := delete wid (redis w); workflows := workflows w |}.

(** Redis has nothing to return for a key: no entry, or an empty one. *)
Definition fast_miss (wid : string) (w : world) : Prop :=
  redis w !! wid = None ∨ cached_value <$> redis w !! wid = Some EmptyString.

(** The order of a page, and the page the cursor and [to_list] select. *)
Definition listed_newer_first (d1 d2 : listed_doc) : Prop :=
  listed_created_at d2 ≤ listed_created_at d1.

Definition page_of (offset limit : Z) (docs : list workflow_doc)
  : list workflow_doc :=
  take (Z.to_nat limit)
    (drop (Z.to_nat offset) (merge_sort newer_first docs)).

(** ** Values for closed examples *)

Definition llm_ok : llm_env :=
  {| construct_error := None; ainvoke := LlmResponse "{}" |}.

Definition llm_down : llm_env :=
  {| construct_error := None; ainvoke := LlmError "Connection error." |}.

Definition graph_ok : graph_env :=
  {| analyze_llm := llm_ok; plan_llm := llm_ok;
     execute_now := "2026-01-05T09:00:00" |}.

Definition graph_down : graph_env :=
  {| analyze_llm := llm_down; plan_llm := llm_down;
     execute_now := "2026-01-05T09:00:00" |}.

(** A state as the first node leaves it when the model cannot be reached. *)
Definition failed_state : ProjectState :=
  {| project_id := "p1";
     requirements := "Build a login page.";
     status := "failed";
     current_phase := "analyzing";
     tasks := [];
     errors := ["Analysis failed: Connection error."];
     context := ∅;
     metadata := ∅ |}.

Definition draft_state : ProjectState :=
  {| project_id := "p1";
     requirements := "Build a login page.";
     status := "draft";
     current_phase := "analyzing";
     tasks := [];
     errors := [];
     context := ∅;
     metadata := ∅ |}.

Definition other_state : ProjectState :=
  {| project_id := "p2";
     requirements := "Export invoices as PDF. Send them by mail";
     status := "analyzed";
     current_phase := "planning";
     tasks := [];
     errors := [];
     context := ∅;
     metadata := ∅ |}.

Definition request_login : WorkflowRequest :=
  {| req_project_id := "p1";
     req_requirements := "Build a login page.";
     req_project_type := "web_application";
     req_priority := "medium";
     req_deadline := None;
     req_context := None |}.

Definition env_ok : env :=
  {| graph := graph_ok;
     now_metadata := 1767603600000000;
     now_workflow_id := 1767603601250000;
     now_created_at := 1767603601260000;
     now_updated_at := 1767603601270000;
     inserted_id := ObjectId "65a1f0c2e4b0a1b2c3d4e5f6";
     setex_error := None;
     get_error := None;
     insert_one_error := None;
     find_one_error := None;
     update_one_error := None;
     find_error := None;
     count_documents_error := None |}.

Definition env_down : env :=
  {| graph := graph_down;
     now_metadata := 1767603600000000;
     now_workflow_id := 1767603601250000;
     now_created_at := 1767603601260000;
     now_updated_at := 1767603601270000;
     inserted_id := ObjectId "65a1f0c2e4b0a1b2c3d4e5f7";
     setex_error := None;
     get_error := None;
     insert_one_error := None;
     find_one_error := None;
     update_one_error := None;
     find_error := None;
     count_documents_error := None |}.

Definition env_redis_down : env :=
  {| graph := graph_ok;
     now_metadata := 1767603600000000;
     now_workflow_id := 1767603601250000;
     now_created_at := 1767603601260000;
     now_updated_at := 1767603601270000;
     inserted_id := ObjectId "65a1f0c2e4b0a1b2c3d4e5f6";
     setex_error := Some "Error 111 connecting to localhost:6379. Connection refused.";
     get_error := None;
     insert_one_error := None;
     find_one_error := None;
     update_one_error := None;
     find_error := None;
     count_documents_error := None |}.

(** A stand-in for the library functions in closed examples; no property
    below depends on what they compute. *)
Definition lib0 : pylib :=
  {| isoformat := λ d, str_int d;
     json_dumps := λ _, "{...}";
     json_loads := λ _, Raised "Expecting value" |}.

Definition world_empty : world := {| redis := ∅; workflows := [] |}.

Definition stored_doc : workflow_doc :=
  {| doc_id := ObjectId "65a1f0c2e4b0a1b2c3d4e5f6";
     workflow_id := "workflow_p1_1767603601";
     doc_project_id := "p1";
     state := failed_state;
     created_at := 1767603601260000;
     updated_at := 1767603601270000 |}.

Definition world_cold : world :=
  {| redis := ∅; workflows := [stored_doc] |}.

(** A planned state whose second task has lost its ["status"] key. *)
Definition broken_state : ProjectState :=
  {| project_id := "p3";
     requirements := "Import contacts";
     status := "planned";
     current_phase := "development";
     tasks := [sample_task 0; {[ "id" := PStr "task_x" ]}; sample_task 2];
     errors := [];
     context := ∅;
     metadata := ∅ |}.

Definition doc_at (oid wid : string) (created : datetime) : workflow_doc :=
  {| doc_id := ObjectId oid;
     workflow_id := wid;
     doc_project_id := "p1";
     state := draft_state;
     created_at := created;
     updated_at := created |}.

Definition world_three : world :=
  {| redis := ∅;
     workflows := [ doc_at "a1" "workflow_p1_20" 20000000;
                    doc_at "a2" "workflow_p1_30" 30000000;
                    doc_at "a3" "workflow_p1_10" 10000000 ] |}.

Definition world_warm : world :=
  {| redis := {[ "workflow_p1_1767603601" :=
                   {| cached_value := "not json"; cached_ttl := 3600 |} ]};
     workflows := [stored_doc] |}.

(** ** The health check

    [redis_client.ping()] and [mongo_client.admin.command('ping')] raise
    what the environment says; the report carries the time of the check. *)

Record health_env : Type := {
  redis_ping_error : option string;
  mongo_ping_error : option string;
  now_health : datetime
}.

Record health_report : Type := {
  health_status : string;
  health_timestamp : string;
  health_redis : string;
  health_mongodb : string
}.

Definition ping (error : option string) : M unit :=
  store_call error (λ w, (tt, w)).

Definition health_check (lib : pylib) (h : health_env) : M health_report :=
  try_except
    (run ping (redis_ping_error h) in
     run ping (mongo_ping_error h) in
     ret {| health_status := "healthy";
            health_timestamp := isoformat lib (now_health h);
            health_redis := "connected";
            health_mongodb := "connected" |})
    (λ ex, raise (HTTPException 503
                    ("Service unhealthy: " +:+ str_exn ex))).

(** ** Further notions used to state properties *)

(** [sep.join(pieces)] *)
Fixpoint join (sep : string) (pieces : list string) : string :=
  match pieces with
  | [] => EmptyString
  | [piece] => piece
  | piece :: rest => piece +:+ sep +:+ join sep rest
  end.

(** The number of occurrences of a character in a string. *)
Fixpoint count_char (c : ascii) (s : string) : nat :=
  match s with
  | EmptyString => 0%nat
  | String c' rest =>
      ((if bool_decide (c' = c) then 1 else 0) + count_char c rest)%nat
  end.

(** Whether a character occurs in a string. *)
Fixpoint occurs (c : ascii) (s : string) : bool :=
  match s with
  | EmptyString => false
  | String c' rest => bool_decide (c' = c) || occurs c rest
  end.

(** What the nodes leave alone: the identity of the project, the metadata,
    and every entry of the context outside their three keys. *)
Definition same_outside_namespaces (s s' : ProjectState) : Prop :=
  project_id s' = project_id s ∧
  requirements s' = requirements s ∧
  metadata s' = metadata s ∧
  ∀ k : string, k ≠ "analysis" → k ≠ "plan" → k ≠ "execution" →
                context s' !! k = context s !! k.

(** What the loop of [execute_tasks] may do to one task: nothing, or, if it
    was pending, mark it assigned to one of the first two agents and leave
    its other entries as they were. *)
Definition task_step (t t' : gmap string pyval) : Prop :=
  t' = t ∨
  (is_pending t = true ∧
   t' !! "status" = Some (PStr "assigned") ∧
   (t' !! "assigned_agent" = Some (PStr "agent_1") ∨
    t' !! "assigned_agent" = Some (PStr "agent_2")) ∧
   ∀ k : string, k ≠ "status" → k ≠ "assigned_agent" → t' !! k = t !! k).

Definition has_status (t : gmap string pyval) : Prop :=
  is_Some (t !! "status").

(** [execute_tasks] invoked [n] times in a row, with the same clock
    reading. *)
Fixpoint execute_tasks_times (n : nat) (start_time : string)
    (s : ProjectState) : result string ProjectState :=
  match n with
  | O => Returned s
  | S n' => then_node (execute_tasks start_time s)
                      (execute_tasks_times n' start_time)
  end.

(** No API key: the constructor of the client raises in both nodes. *)
Definition llm_no_key : llm_env :=
  {| construct_error := Some "The api_key client option must be set";
     ainvoke := LlmError "Connection error." |}.

Definition env_no_key : env :=
  {| graph := {| analyze_llm := llm_no_key; plan_llm := llm_no_key;
                 execute_now := "2026-01-05T09:00:00" |};
     now_metadata := 1767603600000000;
     now_workflow_id := 1767603601250000;
     now_created_at := 1767603601260000;
     now_updated_at := 1767603601270000;
     inserted_id := ObjectId "65a1f0c2e4b0a1b2c3d4e5f8";
     setex_error := None;
     get_error := None;
     insert_one_error := None;
     find_one_error := None;
     update_one_error := None;
     find_error := None;
     count_documents_error := None |}.

(** A request that arrives half a second after the one of [env_down], in
    the same second, and finds the model answering. *)
Definition env_ok_later : env :=
  {| graph := graph_ok;
     now_metadata := 1767603601700000;
     now_workflow_id := 1767603601750000;
     now_created_at := 1767603601760000;
     now_updated_at := 1767603601770000;
     inserted_id := ObjectId "65a1f0c2e4b0a1b2c3d4e5f9";
     setex_error := None;
     get_error := None;
     insert_one_error := None;
     find_one_error := None;
     update_one_error := None;
     find_error := None;
     count_documents_error := None |}.

Definition health_all_up : health_env :=
  {| redis_ping_error := None; mongo_ping_error := None;
     now_health := 1767603600000000 |}.

(** A library whose decoder gives back the state of [state_login], the
    state that a start for [request_login] stores when the model answers. *)
Definition state_login : ProjectState :=
  pass_result graph_ok (initial_state_of lib0 env_ok request_login).

Definition lib_echo : pylib :=
  {| isoformat := isoformat lib0;
     json_dumps := λ _, "{...}";
     json_loads := λ _, Returned (state_dict state_login) |}.

Definition health_redis_down : health_env :=
  {| redis_ping_error := Some "Connection refused";
     mongo_ping_error := Some "No servers found";
     now_health := 1767603600000000 |}.

(** * Properties *)

(** ** The graph runs its three nodes in order *)

Lemma then_node_Returned s f : then_node (Returned s) f = f s.
Proof. reflexivity. Qed.

Lemma then_node_Raised e f : then_node (Raised e) f = Raised e.
Proof. reflexivity. Qed.

Lemma run_from_END steps g ge s : run_from steps g ge END s = Returned s.
Proof. destruct steps; reflexivity. Qed.

Lemma run_from_node steps g ge name f next s :
  name ≠ END →
  assoc name (nodes g) = Some f →
  assoc name (edges g) = Some next →
  run_from (S steps) g ge name s =
  then_node (f ge s) (run_from steps g ge next).
Proof.
  intros Hname Hnode Hedge. simpl.
  rewrite bool_decide_eq_false_2 by exact Hname.
  rewrite Hnode, Hedge. destruct (f ge s); reflexivity.
Qed.

Lemma workflow_ainvoke_unfold ge s :
  workflow_ainvoke create_project_workflow ge s =
  then_node (then_node (analyze_requirements (analyze_llm ge) s)
                       (create_plan (plan_llm ge)))
            (execute_tasks (execute_now ge)).
Proof.
  unfold workflow_ainvoke, recursion_limit.
  change (entry_point create_project_workflow) with "analyze".
  erewrite (run_from_node _ _ _ "analyze" _ "plan");
    [|discriminate|reflexivity|reflexivity].
  cbv beta. destruct (analyze_requirements _ s) as [s1|];
    rewrite ?then_node_Raised; [|reflexivity].
  rewrite !then_node_Returned.
  erewrite (run_from_node _ _ _ "plan" _ "execute");
    [|discriminate|reflexivity|reflexivity].
  cbv beta. destruct (create_plan _ s1) as [s2|];
    rewrite ?then_node_Raised; [|reflexivity].
  rewrite !then_node_Returned.
  erewrite (run_from_node _ _ _ "execute" _ END);
    [|discriminate|reflexivity|reflexivity].
  cbv beta. destruct (execute_tasks _ s2) as [s3|];
    rewrite ?then_node_Raised; [|reflexivity].
  rewrite then_node_Returned. apply run_from_END.
Qed.

(** ** The nodes, case by case *)

Section Nodes.
Context (le : llm_env) (s : ProjectState).

Lemma analyze_requirements_response content :
  construct_error le = None → ainvoke le = LlmResponse content →
  analyze_requirements le s =
  Returned (set_current_phase "planning"
              (set_status "analyzed"
                 (set_context "analysis"
                    (PDict (analysis_of (requirements s))) s))).
Proof.
  intros Hc Ha. unfold analyze_requirements, get_llm.
  rewrite bool_decide_eq_true_2 by reflexivity. by rewrite Hc, Ha.
Qed.

Lemma analyze_requirements_error msg :
  construct_error le = None → ainvoke le = LlmError msg →
  analyze_requirements le s =
  Returned (set_status "failed"
              (append_error ("Analysis failed: " +:+ msg) s)).
Proof.
  intros Hc Ha. unfold analyze_requirements, get_llm.
  rewrite bool_decide_eq_true_2 by reflexivity. by rewrite Hc, Ha.
Qed.

Lemma create_plan_failed :
  status s = "failed" → create_plan le s = Returned s.
Proof.
  intros Hs. unfold create_plan. by rewrite bool_decide_eq_true_2.
Qed.

Lemma create_plan_response content :
  status s ≠ "failed" →
  construct_error le = None → ainvoke le = LlmResponse content →
  create_plan le s =
  Returned (set_current_phase "development"
              (set_status "planned"
                 (set_context "plan" (PDict plan)
                    (set_tasks sample_tasks s)))).
Proof.
  intros Hs Hc Ha. unfold create_plan, get_llm.
  rewrite (bool_decide_eq_false_2 _ Hs).
  rewrite bool_decide_eq_true_2 by reflexivity. by rewrite Hc, Ha.
Qed.

Lemma create_plan_error msg :
  status s ≠ "failed" →
  construct_error le = None → ainvoke le = LlmError msg →
  create_plan le s =
  Returned (set_status "failed"
              (append_error ("Planning failed: " +:+ msg) s)).
Proof.
  intros Hs Hc Ha. unfold create_plan, get_llm.
  rewrite (bool_decide_eq_false_2 _ Hs).
  rewrite bool_decide_eq_true_2 by reflexivity. by rewrite Hc, Ha.
Qed.

Lemma execute_tasks_failed start_time :
  status s = "failed" → execute_tasks start_time s = Returned s.
Proof.
  intros Hs. unfold execute_tasks. by rewrite bool_decide_eq_true_2.
Qed.

Lemma execute_tasks_end start_time ts n :
  status s ≠ "failed" → assign_loop 0 (tasks s) = LoopEnd ts n →
  execute_tasks start_time s =
  Returned (set_current_phase "development"
              (set_status "executing"
                 (set_context "execution"
                    (PDict (execution_of n start_time))
                    (set_tasks ts s)))).
Proof.
  intros Hs Hl. unfold execute_tasks.
  by rewrite (bool_decide_eq_false_2 _ Hs), Hl.
Qed.

End Nodes.

(** The loop never assigns more than two tasks, keeps the number of tasks,
    and leaves exactly as many tasks pending as it did not assign. *)

Lemma is_pending_assign n t : is_pending (assign n t) = false.
Proof.
  unfold is_pending, assign.
  rewrite lookup_insert_ne by discriminate. by rewrite lookup_insert_eq.
Qed.

Lemma count_pending_cons t ts :
  count_pending (t :: ts) =
  ((if is_pending t then 1 else 0) + count_pending ts)%nat.
Proof.
  unfold count_pending. rewrite filter_cons.
  destruct (is_pending t); case_decide; done.
Qed.

Lemma assign_loop_end n ts ts' n' :
  (n < 2)%nat → assign_loop n ts = LoopEnd ts' n' →
  (n ≤ n' ≤ 2)%nat ∧ length ts' = length ts ∧
  (count_pending ts' + (n' - n) = count_pending ts)%nat.
Proof.
  revert n ts' n'. induction ts as [|t ts IH]; intros n ts' n' Hn Hloop.
  - simpl in Hloop. injection Hloop as <- <-. split; [lia|]. split; [done|].
    unfold count_pending. simpl. lia.
  - simpl in Hloop. rewrite (count_pending_cons t ts). unfold is_pending.
    destruct (t !! "status") as [v|] eqn:Hst; [|discriminate].
    destruct (py_eq_str v "pending") eqn:Hp.
    + case_bool_decide as H2.
      * injection Hloop as <- <-. rewrite count_pending_cons, is_pending_assign.
        simpl. lia.
      * destruct (assign_loop (S n) ts) as [ts1 n1|] eqn:Hrec; [|discriminate].
        simpl in Hloop. injection Hloop as <- <-.
        apply IH in Hrec as (? & ? & ?); [|lia].
        rewrite count_pending_cons, is_pending_assign. simpl. lia.
    + destruct (assign_loop n ts) as [ts1 n1|] eqn:Hrec; [|discriminate].
      simpl in Hloop. injection Hloop as <- <-.
      apply IH in Hrec as (? & ? & ?); [|lia].
      rewrite count_pending_cons. unfold is_pending. rewrite Hst, Hp.
      simpl. lia.
Qed.

Lemma assign_loop_sample_tasks :
  assign_loop 0 sample_tasks = LoopEnd assigned_sample_tasks 2.
Proof. vm_compute. reflexivity. Qed.

Lemma workflow_ainvoke_responses ge s content1 content2 :
  construct_error (analyze_llm ge) = None →
  ainvoke (analyze_llm ge) = LlmResponse content1 →
  construct_error (plan_llm ge) = None →
  ainvoke (plan_llm ge) = LlmResponse content2 →
  workflow_ainvoke create_project_workflow ge s = Returned (pass_result ge s).
Proof.
  intros Hc1 Ha1 Hc2 Ha2. rewrite workflow_ainvoke_unfold.
  rewrite (analyze_requirements_response _ _ _ Hc1 Ha1), then_node_Returned.
  rewrite (create_plan_response _ _ content2); [|discriminate|done..].
  rewrite then_node_Returned.
  rewrite (execute_tasks_end _ _ assigned_sample_tasks 2);
    [reflexivity|discriminate|apply assign_loop_sample_tasks].
Qed.

(** ** Claims about the nodes *)

(** C1 (the code departs from it).  [create_plan] and [execute_tasks]
    return a failed state as it is, but [analyze_requirements] has no such
    guard: on the failed state [failed_state] it writes the analysis into
    the context and sets the status to ["analyzed"] and the phase to
    ["planning"] when the model answers, and appends one more error message
    when it does not.  In both cases the state returned differs from the
    state given. *)
Theorem analyze_requirements_rewrites_failed_state :
  status failed_state = "failed" ∧
  (∃ s', analyze_requirements llm_ok failed_state = Returned s' ∧
         status s' = "analyzed" ∧ current_phase s' = "planning" ∧
         context s' !! "analysis"
           = Some (PDict (analysis_of "Build a login page.")) ∧
         s' ≠ failed_state) ∧
  (∃ s', analyze_requirements llm_down failed_state = Returned s' ∧
         errors s' = ["Analysis failed: Connection error.";
                      "Analysis failed: Connection error."] ∧
         s' ≠ failed_state).
Proof.
  split; [reflexivity|]. split.
  - eexists. split; [by eapply analyze_requirements_response|].
    split; [reflexivity|]. split; [reflexivity|].
    split; [apply lookup_insert_eq|].
    intros Heq. by apply (f_equal status) in Heq.
  - eexists. split; [by eapply analyze_requirements_error|].
    split; [reflexivity|].
    intros Heq. by apply (f_equal errors) in Heq.
Qed.

(** The two guarded nodes do pass a failed state through. *)
Lemma guarded_nodes_pass_failed_state le start_time s :
  status s = "failed" →
  create_plan le s = Returned s ∧ execute_tasks start_time s = Returned s.
Proof.
  intros Hs. split; [by apply create_plan_failed|by apply execute_tasks_failed].
Qed.

(** C3 (the code departs from it).  One pass over [draft_state] ends in a
    state [s3] of status ["executing"]; the next invocation of the first
    node, which is how every later pass over the stored state begins, takes
    the status back to ["analyzed"], from rank 3 to rank 1.  And on
    [failed_state] the same node resets ["failed"] to ["analyzed"]. *)
Theorem analyze_requirements_regresses_status :
  (∃ s3 s4,
     workflow_ainvoke create_project_workflow graph_ok draft_state
       = Returned s3 ∧
     status s3 = "executing" ∧ status_rank (status s3) = Some 3%nat ∧
     analyze_requirements (analyze_llm graph_ok) s3 = Returned s4 ∧
     status s4 = "analyzed" ∧ status_rank (status s4) = Some 1%nat) ∧
  (∃ s', status failed_state = "failed" ∧
         analyze_requirements (analyze_llm graph_ok) failed_state
           = Returned s' ∧
         status s' = "analyzed" ∧ status s' ≠ "failed").
Proof.
  split.
  - exists (pass_result graph_ok draft_state). eexists.
    split; [by eapply workflow_ainvoke_responses|].
    split; [reflexivity|]. split; [reflexivity|].
    split; [by eapply analyze_requirements_response|].
    split; reflexivity.
  - eexists. split; [reflexivity|].
    split; [by eapply analyze_requirements_response|].
    split; [reflexivity|discriminate].
Qed.

Lemma assigned_sample_tasks_lookup :
  (λ t : gmap string pyval, (t !! "id", t !! "status", t !! "assigned_agent"))
    <$> assigned_sample_tasks =
  [ (Some (PStr "task_1"), Some (PStr "assigned"), Some (PStr "agent_1"));
    (Some (PStr "task_2"), Some (PStr "assigned"), Some (PStr "agent_2"));
    (Some (PStr "task_3"), Some (PStr "pending"), None);
    (Some (PStr "task_4"), Some (PStr "pending"), None);
    (Some (PStr "task_5"), Some (PStr "pending"), None) ].
Proof. vm_compute. reflexivity. Qed.

Lemma sample_tasks_lookup :
  (λ t : gmap string pyval, (t !! "id", t !! "status", t !! "assigned_agent"))
    <$> sample_tasks =
  [ (Some (PStr "task_1"), Some (PStr "pending"), None);
    (Some (PStr "task_2"), Some (PStr "pending"), None);
    (Some (PStr "task_3"), Some (PStr "pending"), None);
    (Some (PStr "task_4"), Some (PStr "pending"), None);
    (Some (PStr "task_5"), Some (PStr "pending"), None) ].
Proof. vm_compute. reflexivity. Qed.

(** C5.  A start pass on the requirements ["Build a login page."] in which
    the model answers both nodes: the three nodes return in turn states of
    status ["analyzed"], ["planned"] and ["executing"]; the analysis is in
    the context, with the features ["Build a login page"] and the empty
    string; there are exactly five tasks, the first two assigned to
    [agent_1] and [agent_2], the other three still pending and without an
    agent; and the
    execution summary counts two tasks and two agents.  Whatever the tasks
    of a state are, one run of the loop of [execute_tasks] assigns at most
    two of them. *)
Theorem start_pass_build_a_login_page
    (lib : pylib) (e : env) (request : WorkflowRequest)
    (content1 content2 : string) :
  req_requirements request = "Build a login page." →
  construct_error (analyze_llm (graph e)) = None →
  ainvoke (analyze_llm (graph e)) = LlmResponse content1 →
  construct_error (plan_llm (graph e)) = None →
  ainvoke (plan_llm (graph e)) = LlmResponse content2 →
  ∃ s1 s2 s3,
    analyze_requirements (analyze_llm (graph e))
      (initial_state_of lib e request) = Returned s1 ∧
    create_plan (plan_llm (graph e)) s1 = Returned s2 ∧
    execute_tasks (execute_now (graph e)) s2 = Returned s3 ∧
    workflow_ainvoke create_project_workflow (graph e)
      (initial_state_of lib e request) = Returned s3 ∧
    status s1 = "analyzed" ∧ status s2 = "planned" ∧
    status s3 = "executing" ∧
    context s3 !! "analysis"
      = Some (PDict (analysis_of "Build a login page.")) ∧
    analysis_of "Build a login page." !! "features"
      = Some (PList [PStr "Build a login page"; PStr EmptyString]) ∧
    length (tasks s3) = 5%nat ∧
    (λ t : gmap string pyval, (t !! "status", t !! "assigned_agent"))
      <$> tasks s3 =
      [ (Some (PStr "assigned"), Some (PStr "agent_1"));
        (Some (PStr "assigned"), Some (PStr "agent_2"));
        (Some (PStr "pending"), None);
        (Some (PStr "pending"), None);
        (Some (PStr "pending"), None) ] ∧
    context s3 !! "execution"
      = Some (PDict (execution_of 2 (execute_now (graph e)))) ∧
    execution_of 2 (execute_now (graph e)) !! "tasks_assigned"
      = Some (PInt 2) ∧
    execution_of 2 (execute_now (graph e)) !! "agents_used"
      = Some (PInt 2) ∧
    (∀ ts ts' n,
       assign_loop 0 ts = LoopEnd ts' n →
       (n ≤ 2)%nat ∧ length ts' = length ts ∧
       (count_pending ts' + n = count_pending ts)%nat).
Proof.
  intros Hreq Hc1 Ha1 Hc2 Ha2.
  set (s0 := initial_state_of lib e request).
  assert (Hreq0 : requirements s0 = "Build a login page.") by exact Hreq.
  eexists _, _, (pass_result (graph e) s0).
  split; [exact (analyze_requirements_response _ _ _ Hc1 Ha1)|].
  split; [apply (create_plan_response _ _ content2); [discriminate|done..]|].
  split.
  { rewrite (execute_tasks_end _ _ assigned_sample_tasks 2);
      [reflexivity|discriminate|apply assign_loop_sample_tasks]. }
  split; [exact (workflow_ainvoke_responses _ _ _ _ Hc1 Ha1 Hc2 Ha2)|].
  split; [reflexivity|]. split; [reflexivity|]. split; [reflexivity|].
  split.
  { unfold pass_result.
    cbn [context set_current_phase set_status set_context set_tasks].
    rewrite lookup_insert_ne by discriminate.
    rewrite lookup_insert_ne by discriminate.
    by rewrite lookup_insert_eq, Hreq0. }
  split; [by vm_compute|].
  split; [reflexivity|].
  split.
  { change (tasks (pass_result (graph e) s0)) with assigned_sample_tasks.
    generalize assigned_sample_tasks_lookup.
    generalize assigned_sample_tasks as l. intros l Hl.
    apply (f_equal (fmap (λ x : _ * _ * _, (x.1.2, x.2)))) in Hl.
    rewrite <- list_fmap_compose in Hl. exact Hl. }
  split; [apply lookup_insert_eq|].
  split; [apply lookup_insert_eq|].
  split.
  { unfold execution_of. rewrite lookup_insert_ne by discriminate.
    apply lookup_insert_eq. }
  intros ts ts' n Hl. apply assign_loop_end in Hl; [|lia].
  destruct Hl as (? & ? & ?). repeat split; lia.
Qed.

Lemma start_pass_build_a_login_page_witness :
  ∃ s3, workflow_ainvoke create_project_workflow (graph env_ok)
          (initial_state_of lib0 env_ok request_login) = Returned s3 ∧
        status s3 = "executing" ∧ length (tasks s3) = 5%nat.
Proof.
  destruct (start_pass_build_a_login_page lib0 env_ok request_login "{}" "{}")
    as (s1 & s2 & s3 & _ & _ & _ & Hrun & _ & _ & Hst & _ & _ & Hlen & _);
    [reflexivity..|].
  exists s3. auto.
Defined.

(** C7.  When the client of [analyze_requirements] is constructed and the
    call to the model fails, a start pass from a request without initial
    context ends in a state of status ["failed"] whose only error message
    is the one of the analysis, with no task and an empty context.  The
    node returns that state: the failure is recorded, not raised, and the
    two nodes after it pass the state through. *)
Theorem start_pass_analyzer_fails
    (lib : pylib) (e : env) (request : WorkflowRequest) (msg : string) :
  default ∅ (req_context request) = ∅ →
  construct_error (analyze_llm (graph e)) = None →
  ainvoke (analyze_llm (graph e)) = LlmError msg →
  ∃ s,
    analyze_requirements (analyze_llm (graph e))
      (initial_state_of lib e request) = Returned s ∧
    workflow_ainvoke create_project_workflow (graph e)
      (initial_state_of lib e request) = Returned s ∧
    status s = "failed" ∧
    errors s = ["Analysis failed: " +:+ msg] ∧
    (1 ≤ length (errors s))%nat ∧
    tasks s = [] ∧
    context s = ∅.
Proof.
  intros Hctx Hc Ha.
  eexists. split; [exact (analyze_requirements_error _ _ _ Hc Ha)|].
  split.
  { rewrite workflow_ainvoke_unfold.
    rewrite (analyze_requirements_error _ _ _ Hc Ha), then_node_Returned.
    rewrite create_plan_failed by reflexivity.
    rewrite then_node_Returned. by apply execute_tasks_failed. }
  split; [reflexivity|]. split; [reflexivity|]. split; [simpl; lia|].
  split; [reflexivity|exact Hctx].
Qed.

Lemma start_pass_analyzer_fails_witness :
  default ∅ (req_context request_login) = ∅ ∧
  ∃ s, workflow_ainvoke create_project_workflow (graph env_down)
         (initial_state_of lib0 env_down request_login) = Returned s ∧
       status s = "failed" ∧
       errors s = ["Analysis failed: Connection error."].
Proof.
  split; [reflexivity|].
  destruct (start_pass_analyzer_fails lib0 env_down request_login
              "Connection error.")
    as (s & _ & Hrun & Hst & Herr & _); [reflexivity..|].
  exists s. auto.
Defined.

(** Without the condition on the constructor the node does not contain the
    failure: [get_llm] is called before the [try], so when the constructor
    raises (here for want of an API key) the node raises, the pass raises,
    and [start_workflow] answers status 500 and stores nothing, although
    every call to the model would fail as well. *)
Lemma start_workflow_without_api_key :
  construct_error (analyze_llm (graph env_no_key))
    = Some "The api_key client option must be set" ∧
  ainvoke (analyze_llm (graph env_no_key)) = LlmError "Connection error." ∧
  analyze_requirements (analyze_llm (graph env_no_key))
    (initial_state_of lib0 env_no_key request_login)
    = Raised "The api_key client option must be set" ∧
  workflow_ainvoke create_project_workflow (graph env_no_key)
    (initial_state_of lib0 env_no_key request_login)
    = Raised "The api_key client option must be set" ∧
  start_workflow lib0 env_no_key request_login world_empty
    = (Raised (HTTPException 500
                 "Workflow failed: The api_key client option must be set"),
       world_empty).
Proof.
  split; [reflexivity|]. split; [reflexivity|].
  assert (Hnode : analyze_requirements (analyze_llm (graph env_no_key))
            (initial_state_of lib0 env_no_key request_login)
            = Raised "The api_key client option must be set").
  { unfold analyze_requirements, get_llm.
    by rewrite bool_decide_eq_true_2 by reflexivity. }
  assert (Hrun : workflow_ainvoke create_project_workflow (graph env_no_key)
            (initial_state_of lib0 env_no_key request_login)
            = Raised "The api_key client option must be set").
  { rewrite workflow_ainvoke_unfold. by rewrite Hnode. }
  split; [exact Hnode|]. split; [exact Hrun|].
  unfold start_workflow, try_except, bind, lift. by rewrite Hrun.
Qed.

(** C10.  Where the model answers, what [create_plan] writes does not
    depend on the requirements, on the rest of the state or on the answer:
    two runs on any two states that are not failed leave the same five
    tasks, [task_1] to [task_5], all pending, and the same plan under
    ["plan"], with 23 tasks in total and four phases.  Of the analysis that
    [analyze_requirements] writes, only the entry ["features"] -- the
    requirements split at every ["."] -- varies with the requirements. *)
Theorem create_plan_is_fixed
    (le1 le2 : llm_env) (s1 s2 : ProjectState) (content1 content2 : string) :
  status s1 ≠ "failed" → status s2 ≠ "failed" →
  construct_error le1 = None → ainvoke le1 = LlmResponse content1 →
  construct_error le2 = None → ainvoke le2 = LlmResponse content2 →
  ∃ s1' s2',
    create_plan le1 s1 = Returned s1' ∧
    create_plan le2 s2 = Returned s2' ∧
    tasks s1' = tasks s2' ∧
    context s1' !! "plan" = context s2' !! "plan" ∧
    status s1' = status s2' ∧ current_phase s1' = current_phase s2' ∧
    context s1' !! "plan" = Some (PDict plan) ∧
    plan !! "total_tasks" = Some (PInt 23) ∧
    plan !! "phases" = Some (PList [ phase "Setup" "1 week" 3;
                                     phase "Development" "4 weeks" 12;
                                     phase "Testing" "2 weeks" 6;
                                     phase "Deployment" "1 week" 2 ]) ∧
    length (tasks s1') = 5%nat ∧
    (λ t : gmap string pyval, (t !! "id", t !! "status")) <$> tasks s1' =
      [ (Some (PStr "task_1"), Some (PStr "pending"));
        (Some (PStr "task_2"), Some (PStr "pending"));
        (Some (PStr "task_3"), Some (PStr "pending"));
        (Some (PStr "task_4"), Some (PStr "pending"));
        (Some (PStr "task_5"), Some (PStr "pending")) ] ∧
    (∀ r1 r2 : string,
       delete "features" (analysis_of r1) = delete "features" (analysis_of r2)) ∧
    (∀ r : string,
       analysis_of r !! "features" = Some (PList (PStr <$> split_on "." r))).
Proof.
  intros Hs1 Hs2 Hc1 Ha1 Hc2 Ha2.
  eexists _, _.
  split; [exact (create_plan_response _ _ _ Hs1 Hc1 Ha1)|].
  split; [exact (create_plan_response _ _ _ Hs2 Hc2 Ha2)|].
  split; [reflexivity|].
  split.
  { cbn [context set_current_phase set_status set_context set_tasks].
    by rewrite !lookup_insert_eq. }
  split; [reflexivity|]. split; [reflexivity|].
  split; [apply lookup_insert_eq|].
  split; [by vm_compute|]. split; [by vm_compute|].
  split; [reflexivity|].
  split.
  { change (tasks _) with sample_tasks.
    generalize sample_tasks_lookup. generalize sample_tasks as l. intros l Hl.
    apply (f_equal (fmap (λ x : _ * _ * _, x.1))) in Hl.
    rewrite <- list_fmap_compose in Hl. exact Hl. }
  split.
  - intros r1 r2. unfold analysis_of.
    rewrite !(delete_insert_ne _ "features") by discriminate.
    by rewrite !delete_insert_eq.
  - intros r. unfold analysis_of.
    rewrite !(lookup_insert_ne _ _ "features") by discriminate.
    apply lookup_insert_eq.
Qed.

Lemma create_plan_is_fixed_witness :
  status draft_state ≠ "failed" ∧ status other_state ≠ "failed" ∧
  requirements draft_state ≠ requirements other_state ∧
  ∃ s1' s2',
    create_plan llm_ok draft_state = Returned s1' ∧
    create_plan llm_ok other_state = Returned s2' ∧
    tasks s1' = tasks s2' ∧
    context s1' !! "plan" = context s2' !! "plan".
Proof.
  split; [discriminate|]. split; [discriminate|]. split; [discriminate|].
  destruct (create_plan_is_fixed llm_ok llm_ok draft_state other_state
              "{}" "{}")
    as (s1' & s2' & H1 & H2 & Ht & Hp & _);
    [discriminate|discriminate|reflexivity..|].
  exists s1', s2'. auto.
Defined.

(** ** The endpoints, case by case *)

Lemma workflow_ainvoke_analyzer_error ge s msg :
  construct_error (analyze_llm ge) = None →
  ainvoke (analyze_llm ge) = LlmError msg →
  workflow_ainvoke create_project_workflow ge s =
  Returned (set_status "failed"
              (append_error ("Analysis failed: " +:+ msg) s)).
Proof.
  intros Hc Ha. rewrite workflow_ainvoke_unfold.
  rewrite (analyze_requirements_error _ _ _ Hc Ha), then_node_Returned.
  rewrite create_plan_failed by reflexivity.
  rewrite then_node_Returned. by apply execute_tasks_failed.
Qed.

Lemma first_with_id_set_first wid st updated docs d :
  first_with_id wid docs = Some d →
  first_with_id wid (set_first wid st updated docs) =
  Some {| doc_id := doc_id d; workflow_id := workflow_id d;
          doc_project_id := doc_project_id d; state := st;
          created_at := created_at d; updated_at := updated |}.
Proof.
  induction docs as [|d' docs IH]; [discriminate|]. simpl.
  case_bool_decide as Hid.
  - intros [= ->]. simpl. by rewrite bool_decide_eq_true_2.
  - intros Hd. simpl. rewrite bool_decide_eq_false_2 by done. auto.
Qed.

Lemma first_with_id_app_fresh wid docs d :
  first_with_id wid docs = None → workflow_id d = wid →
  first_with_id wid (docs ++ [d]) = Some d.
Proof.
  intros Hnone Hid. induction docs as [|d' docs IH]; simpl in *.
  - by rewrite bool_decide_eq_true_2.
  - case_bool_decide; [discriminate|auto].
Qed.

Lemma set_first_length wid st updated docs :
  length (set_first wid st updated docs) = length docs.
Proof.
  induction docs as [|d docs IH]; [done|]. simpl.
  case_bool_decide; simpl; congruence.
Qed.

Section EndpointCases.
Context (lib : pylib) (e : env).

Lemma start_workflow_graph_raises request w msg :
  workflow_ainvoke create_project_workflow (graph e)
    (initial_state_of lib e request) = Raised msg →
  start_workflow lib e request w =
  (Raised (HTTPException 500 ("Workflow failed: " +:+ msg)), w).
Proof.
  intros Hrun. unfold start_workflow, try_except, bind, lift.
  by rewrite Hrun.
Qed.

Lemma start_workflow_setex_raises request w result msg :
  workflow_ainvoke create_project_workflow (graph e)
    (initial_state_of lib e request) = Returned result →
  setex_error e = Some msg →
  start_workflow lib e request w =
  (Raised (HTTPException 500 ("Workflow failed: " +:+ msg)), w).
Proof.
  intros Hrun Hsetex.
  unfold start_workflow, try_except, bind, lift, redis_setex, store_call.
  by rewrite Hrun, Hsetex.
Qed.

Lemma start_workflow_insert_one_raises request w result msg :
  workflow_ainvoke create_project_workflow (graph e)
    (initial_state_of lib e request) = Returned result →
  setex_error e = None → insert_one_error e = Some msg →
  start_workflow lib e request w =
  (Raised (HTTPException 500 ("Workflow failed: " +:+ msg)),
   {| redis := <[start_workflow_id e request := cache_entry lib result]> (redis w);
      workflows := workflows w |}).
Proof.
  intros Hrun Hsetex Hinsert.
  unfold start_workflow, try_except, bind, lift, redis_setex, insert_one,
    store_call.
  by rewrite Hrun, Hsetex, Hinsert.
Qed.

Lemma start_workflow_returns request w result :
  workflow_ainvoke create_project_workflow (graph e)
    (initial_state_of lib e request) = Returned result →
  setex_error e = None → insert_one_error e = None →
  start_workflow lib e request w =
  (Returned {| resp_workflow_id := start_workflow_id e request;
               resp_status := status result;
               resp_state := result;
               resp_next_steps := next_steps_of (status result) |},
   {| redis := <[start_workflow_id e request := cache_entry lib result]> (redis w);
      workflows := workflows w ++ [new_doc e request result] |}).
Proof.
  intros Hrun Hsetex Hinsert.
  unfold start_workflow, try_except, bind, lift, redis_setex, insert_one,
    store_call.
  by rewrite Hrun, Hsetex, Hinsert.
Qed.

Lemma continue_workflow_not_found wid w :
  find_one_error e = None → first_with_id wid (workflows w) = None →
  continue_workflow lib e wid w =
  (Raised (HTTPException 404 "Workflow not found"), w).
Proof.
  intros Hfind Hnone.
  unfold continue_workflow, try_except, bind, find_one, store_call.
  by rewrite Hfind, Hnone.
Qed.

Lemma continue_workflow_find_one_raises wid w msg :
  find_one_error e = Some msg →
  continue_workflow lib e wid w =
  (Raised (HTTPException 500 ("Error continuing workflow: " +:+ msg)), w).
Proof.
  intros Hfind.
  unfold continue_workflow, try_except, bind, find_one, store_call.
  by rewrite Hfind.
Qed.

Lemma continue_workflow_returns wid w d result :
  find_one_error e = None → first_with_id wid (workflows w) = Some d →
  workflow_ainvoke create_project_workflow (graph e) (state d)
    = Returned result →
  update_one_error e = None → setex_error e = None →
  continue_workflow lib e wid w =
  (Returned {| continued_status := "continued";
               continued_state := result |},
   {| redis := <[wid := cache_entry lib result]> (redis w);
      workflows := set_first wid result (bson_datetime (now_updated_at e))
                     (workflows w) |}).
Proof.
  intros Hfind Hd Hrun Hupdate Hsetex.
  unfold continue_workflow, try_except, bind, lift, find_one, update_one,
    redis_setex, store_call.
  by rewrite Hfind, Hd, Hrun, Hupdate, Hsetex.
Qed.

(** Whatever happens, a successful [continue_workflow] found a document,
    ran the graph on its state and wrote the result to both stores. *)
Lemma continue_workflow_inv wid w r w' :
  continue_workflow lib e wid w = (Returned r, w') →
  ∃ d, first_with_id wid (workflows w) = Some d ∧
       workflow_ainvoke create_project_workflow (graph e) (state d)
         = Returned (continued_state r) ∧
       w' = {| redis := <[wid := cache_entry lib (continued_state r)]> (redis w);
               workflows := set_first wid (continued_state r)
                              (bson_datetime (now_updated_at e))
                              (workflows w) |}.
Proof.
  unfold continue_workflow, try_except, bind, lift, find_one, update_one,
    redis_setex, store_call, reraise_http, raise, ret.
  destruct (find_one_error e); [discriminate|].
  destruct (first_with_id wid (workflows w)) as [d|]; [|discriminate].
  destruct (workflow_ainvoke _ _ _) as [result|] eqn:Hrun; [|discriminate].
  destruct (update_one_error e); [discriminate|].
  destruct (setex_error e); [discriminate|].
  intros [= <- <-]. exists d. split; [reflexivity|split; [exact Hrun|reflexivity]].
Qed.

Lemma start_workflow_inv request w resp w' :
  start_workflow lib e request w = (Returned resp, w') →
  workflow_ainvoke create_project_workflow (graph e)
    (initial_state_of lib e request) = Returned (resp_state resp) ∧
  setex_error e = None ∧ insert_one_error e = None ∧
  resp_workflow_id resp = start_workflow_id e request ∧
  w' = {| redis := <[start_workflow_id e request :=
                       cache_entry lib (resp_state resp)]> (redis w);
          workflows := workflows w ++ [new_doc e request (resp_state resp)] |}.
Proof.
  unfold start_workflow, try_except, bind, lift, redis_setex, insert_one,
    store_call, raise, ret.
  destruct (workflow_ainvoke _ _ _) as [result|]; [|discriminate].
  destruct (setex_error e); [discriminate|].
  destruct (insert_one_error e); [discriminate|].
  intros [= <- <-]. repeat (split; [reflexivity|]). reflexivity.
Qed.

End EndpointCases.

(** ** Claims about the checkpoints *)

(** C4, as stated, fails.  With Redis refusing the write and MongoDB in
    order, [start_workflow] does not succeed: the exception of [setex]
    reaches the handler of the endpoint and comes out as status 500, and
    nothing has been written to either store. *)
Lemma start_workflow_fails_when_redis_is_down :
  setex_error env_redis_down
    = Some "Error 111 connecting to localhost:6379. Connection refused." ∧
  insert_one_error env_redis_down = None ∧
  start_workflow lib0 env_redis_down request_login world_empty =
  (Raised (HTTPException 500
     "Workflow failed: Error 111 connecting to localhost:6379. Connection refused."),
   world_empty).
Proof.
  split; [reflexivity|]. split; [reflexivity|].
  eapply start_workflow_setex_raises; [|reflexivity].
  by eapply workflow_ainvoke_responses.
Qed.

(** C4, amended.  After a graph run that returned, [start_workflow] writes
    to Redis first and to MongoDB second, inside one [try]; a failure of
    either write is fatal and comes out as status 500.  When the Redis write
    fails nothing is written at all; when the MongoDB write fails the Redis
    entry is already there.  The request succeeds exactly when both writes
    succeed. *)
Theorem start_workflow_needs_both_writes
    (lib : pylib) (e : env) (request : WorkflowRequest) (w : world)
    (result : ProjectState) :
  workflow_ainvoke create_project_workflow (graph e)
    (initial_state_of lib e request) = Returned result →
  (∀ msg, setex_error e = Some msg →
     start_workflow lib e request w =
     (Raised (HTTPException 500 ("Workflow failed: " +:+ msg)), w)) ∧
  (∀ msg, setex_error e = None → insert_one_error e = Some msg →
     start_workflow lib e request w =
     (Raised (HTTPException 500 ("Workflow failed: " +:+ msg)),
      {| redis := <[start_workflow_id e request := cache_entry lib result]>
                    (redis w);
         workflows := workflows w |})) ∧
  ((∃ resp w', start_workflow lib e request w = (Returned resp, w')) ↔
   setex_error e = None ∧ insert_one_error e = None).
Proof.
  intros Hrun. split; [|split].
  - intros msg Hsetex. by eapply start_workflow_setex_raises.
  - intros msg Hsetex Hinsert. by eapply start_workflow_insert_one_raises.
  - split.
    + intros (resp & w' & Hstart).
      apply start_workflow_inv in Hstart as (_ & ? & ? & _). by split.
    + intros [Hsetex Hinsert]. do 2 eexists.
      by eapply start_workflow_returns.
Qed.

Lemma start_workflow_needs_both_writes_witness :
  workflow_ainvoke create_project_workflow (graph env_redis_down)
    (initial_state_of lib0 env_redis_down request_login)
  = Returned (pass_result (graph env_redis_down)
                (initial_state_of lib0 env_redis_down request_login)) ∧
  ¬ ∃ resp w',
      start_workflow lib0 env_redis_down request_login world_empty
      = (Returned resp, w').
Proof.
  assert (Hrun : workflow_ainvoke create_project_workflow (graph env_redis_down)
    (initial_state_of lib0 env_redis_down request_login)
  = Returned (pass_result (graph env_redis_down)
                (initial_state_of lib0 env_redis_down request_login)))
    by (by eapply workflow_ainvoke_responses).
  split; [exact Hrun|].
  intros Hok.
  apply (start_workflow_needs_both_writes lib0 env_redis_down request_login
           world_empty _ Hrun) in Hok.
  destruct Hok as [Hsetex _]. discriminate Hsetex.
Defined.

(** C9.  [continue_workflow] on an identifier without a document in
    [workflows] raises and leaves both stores as they were; when the lookup
    itself went through, what it raises is status 404, "Workflow not
    found". *)
Theorem continue_workflow_unknown_id
    (lib : pylib) (e : env) (wid : string) (w : world) :
  first_with_id wid (workflows w) = None →
  (∃ err, continue_workflow lib e wid w = (Raised err, w)) ∧
  (find_one_error e = None →
   continue_workflow lib e wid w =
   (Raised (HTTPException 404 "Workflow not found"), w)).
Proof.
  intros Hnone. split.
  - destruct (find_one_error e) as [msg|] eqn:Hfind.
    + eexists. by apply continue_workflow_find_one_raises.
    + eexists. by apply continue_workflow_not_found.
  - intros Hfind. by apply continue_workflow_not_found.
Qed.

Lemma continue_workflow_unknown_id_witness :
  first_with_id "workflow_p9_1767600000" (workflows world_empty) = None ∧
  continue_workflow lib0 env_ok "workflow_p9_1767600000" world_empty =
  (Raised (HTTPException 404 "Workflow not found"), world_empty).
Proof.
  split; [reflexivity|].
  apply (continue_workflow_unknown_id lib0 env_ok "workflow_p9_1767600000"
           world_empty); reflexivity.
Defined.

(** C2 (the code departs from it).  A start in which the model cannot be
    reached stores a workflow of status ["failed"], without tasks, with an
    empty context, in phase ["analyzing"] and with one error message.
    Continuing it when the model answers runs all three nodes again: the
    stored state then has status ["executing"], five tasks, an analysis in
    its context and phase ["development"].  Continuing it while the model
    still fails appends the same error message once more at every call:
    two messages after one call, three after two. *)
Theorem continue_workflow_reruns_failed_workflow :
  ∃ resp w1,
    start_workflow lib0 env_down request_login world_empty
      = (Returned resp, w1) ∧
    status (resp_state resp) = "failed" ∧
    tasks (resp_state resp) = [] ∧
    context (resp_state resp) = ∅ ∧
    current_phase (resp_state resp) = "analyzing" ∧
    errors (resp_state resp) = ["Analysis failed: Connection error."] ∧
    (∃ r w2,
       continue_workflow lib0 env_ok (resp_workflow_id resp) w1
         = (Returned r, w2) ∧
       state <$> first_with_id (resp_workflow_id resp) (workflows w2)
         = Some (continued_state r) ∧
       status (continued_state r) = "executing" ∧
       length (tasks (continued_state r)) = 5%nat ∧
       context (continued_state r) !! "analysis"
         = Some (PDict (analysis_of "Build a login page.")) ∧
       current_phase (continued_state r) = "development") ∧
    (∃ r2 w2 r3 w3,
       continue_workflow lib0 env_down (resp_workflow_id resp) w1
         = (Returned r2, w2) ∧
       continue_workflow lib0 env_down (resp_workflow_id resp) w2
         = (Returned r3, w3) ∧
       status (continued_state r3) = "failed" ∧
       errors (continued_state r2)
         = ["Analysis failed: Connection error.";
            "Analysis failed: Connection error."] ∧
       errors (continued_state r3)
         = ["Analysis failed: Connection error.";
            "Analysis failed: Connection error.";
            "Analysis failed: Connection error."]).
Proof.
  set (s0 := initial_state_of lib0 env_down request_login).
  set (s1 := set_status "failed"
               (append_error ("Analysis failed: " +:+ "Connection error.") s0)).
  set (wid := start_workflow_id env_down request_login).
  set (d1 := new_doc env_down request_login s1).
  assert (Hfirst : first_with_id wid ([] ++ [d1]) = Some d1).
  { by apply first_with_id_app_fresh. }
  do 2 eexists. split.
  { apply start_workflow_returns; [|reflexivity..].
    by eapply workflow_ainvoke_analyzer_error. }
  do 5 (split; [reflexivity|]).
  split.
  - do 2 eexists. split.
    { eapply continue_workflow_returns; [reflexivity|exact Hfirst| |done..].
      by eapply workflow_ainvoke_responses. }
    split.
    { cbn [workflows resp_workflow_id continued_state].
      by erewrite first_with_id_set_first by exact Hfirst. }
    do 2 (split; [reflexivity|]).
    split; [|reflexivity].
    cbn [continued_state]. unfold pass_result.
    cbn [context set_current_phase set_status set_context set_tasks].
    rewrite (lookup_insert_ne _ "execution" "analysis") by discriminate.
    rewrite (lookup_insert_ne _ "plan" "analysis") by discriminate.
    apply lookup_insert_eq.
  - do 4 eexists. split.
    { eapply continue_workflow_returns; [reflexivity|exact Hfirst| |done..].
      by eapply workflow_ainvoke_analyzer_error. }
    split.
    { eapply continue_workflow_returns; [reflexivity| | |done..].
      - cbn [workflows resp_workflow_id].
        by erewrite first_with_id_set_first by exact Hfirst.
      - by eapply workflow_ainvoke_analyzer_error. }
    split; [reflexivity|]. split; reflexivity.
Qed.

Section GetCases.
Context (lib : pylib) (e : env) (wid : string) (w : world).
Context (Hget : get_error e = None) (Hfind : find_one_error e = None).

Lemma get_workflow_status_cached c :
  redis w !! wid = Some c → cached_value c ≠ EmptyString →
  get_workflow_status lib e wid w =
  (match json_loads lib (cached_value c) with
   | Returned v => Returned v
   | Raised msg =>
       Raised (HTTPException 500 ("Error retrieving workflow: " +:+ msg))
   end, w).
Proof using Hget.
  intros Hc Hne.
  unfold get_workflow_status, try_except, bind, redis_get, store_call, lift.
  rewrite Hget, Hc. simpl. rewrite bool_decide_eq_true_2 by done.
  by destruct (json_loads lib (cached_value c)).
Qed.

Lemma get_workflow_status_miss :
  fast_miss wid w →
  get_workflow_status lib e wid w =
  (match first_with_id wid (workflows w) with
   | Some d => Returned (state_dict (state d))
   | None => Raised (HTTPException 404 "Workflow not found")
   end, w).
Proof using Hget Hfind.
  intros Hmiss.
  unfold get_workflow_status, try_except, bind, redis_get, find_one,
    store_call.
  rewrite Hget, Hfind.
  destruct Hmiss as [-> | ->]; simpl.
  - by destruct (first_with_id wid (workflows w)).
  - by destruct (first_with_id wid (workflows w)).
Qed.

End GetCases.

Lemma fast_miss_expire wid w : fast_miss wid (expire wid w).
Proof. left. apply lookup_delete_eq. Qed.

(** C6.  [get_workflow_status], when neither store raises on the read:
    a non-empty entry of Redis is decoded and returned; without one (no
    entry, or an empty one) the first document of [workflows] with the
    identifier is looked up and its state returned, and when there is none
    either the endpoint raises status 404.  The stores are the same after as
    before in every case: a state read from MongoDB is not written back to
    Redis.  So once the Redis key has expired, the state that
    [continue_workflow] has just stored is still returned, and so is the
    state that [start_workflow] has just stored under an identifier that
    had no document before. *)
Theorem get_workflow_status_reads_redis_then_mongo
    (lib : pylib) (e : env) (wid : string) (w : world) :
  get_error e = None → find_one_error e = None →
  (∀ c, redis w !! wid = Some c → cached_value c ≠ EmptyString →
     get_workflow_status lib e wid w =
     (match json_loads lib (cached_value c) with
      | Returned v => Returned v
      | Raised msg =>
          Raised (HTTPException 500 ("Error retrieving workflow: " +:+ msg))
      end, w)) ∧
  (∀ d, fast_miss wid w → first_with_id wid (workflows w) = Some d →
     get_workflow_status lib e wid w = (Returned (state_dict (state d)), w)) ∧
  (fast_miss wid w → first_with_id wid (workflows w) = None →
     get_workflow_status lib e wid w =
     (Raised (HTTPException 404 "Workflow not found"), w)) ∧
  (∀ e1 w0 r,
     continue_workflow lib e1 wid w0 = (Returned r, w) →
     get_workflow_status lib e wid (expire wid w) =
     (Returned (state_dict (continued_state r)), expire wid w)) ∧
  (∀ e1 request w0 resp,
     start_workflow lib e1 request w0 = (Returned resp, w) →
     resp_workflow_id resp = wid →
     first_with_id wid (workflows w0) = None →
     get_workflow_status lib e wid (expire wid w) =
     (Returned (state_dict (resp_state resp)), expire wid w)).
Proof.
  intros Hget Hfind. split; [|split; [|split; [|split]]].
  - intros c. by apply get_workflow_status_cached.
  - intros d Hmiss Hd. rewrite get_workflow_status_miss by done.
    by rewrite Hd.
  - intros Hmiss Hd. rewrite get_workflow_status_miss by done.
    by rewrite Hd.
  - intros e1 w0 r Hcont.
    apply continue_workflow_inv in Hcont as (d & Hd & _ & ->).
    rewrite get_workflow_status_miss by auto using fast_miss_expire.
    cbn [expire workflows].
    by rewrite (first_with_id_set_first _ _ _ _ _ Hd).
  - intros e1 request w0 resp Hstart Hid Hfresh.
    apply start_workflow_inv in Hstart as (_ & _ & _ & Hwid & ->).
    rewrite get_workflow_status_miss by auto using fast_miss_expire.
    cbn [expire workflows].
    rewrite (first_with_id_app_fresh _ _ _ Hfresh); [done|].
    by rewrite <- Hid, Hwid.
Qed.

Lemma get_workflow_status_reads_redis_then_mongo_witness :
  get_error env_ok = None ∧ find_one_error env_ok = None ∧
  fast_miss "workflow_p1_1767603601" world_cold ∧
  get_workflow_status lib0 env_ok "workflow_p1_1767603601" world_cold =
  (Returned (state_dict failed_state), world_cold).
Proof.
  split; [reflexivity|]. split; [reflexivity|].
  split; [by left|].
  destruct (get_workflow_status_reads_redis_then_mongo lib0 env_ok
              "workflow_p1_1767603601" world_cold eq_refl eq_refl)
    as (_ & Hdurable & _).
  apply (Hdurable stored_doc); [by left|reflexivity].
Defined.

Lemma first_with_id_app_found wid docs l d :
  first_with_id wid docs = Some d → first_with_id wid (docs ++ l) = Some d.
Proof.
  induction docs as [|d' docs IH]; [discriminate|]. simpl.
  case_bool_decide; auto.
Qed.

Lemma state_dict_status s1 s2 :
  state_dict s1 = state_dict s2 → status s1 = status s2.
Proof.
  unfold state_dict. intros Heq.
  apply (f_equal (λ v, match v with
                       | PDict m => m !! "status"
                       | _ => None
                       end)) in Heq.
  rewrite !(lookup_insert_ne _ "project_id" "status") in Heq by discriminate.
  rewrite !(lookup_insert_ne _ "requirements" "status") in Heq by discriminate.
  rewrite !lookup_insert_eq in Heq. congruence.
Qed.

(** The condition on [start_workflow] is needed.  Two starts for one
    project within one second get the same identifier; the second adds a
    second document and overwrites the entry of Redis.  While the entry
    lives a read returns the state put last; once it has expired the read
    finds the document of the first start and returns the older state. *)
Lemma get_workflow_status_after_two_starts_in_one_second :
  ∃ resp1 w1 resp2 w2,
    start_workflow lib0 env_down request_login world_empty
      = (Returned resp1, w1) ∧
    start_workflow lib0 env_ok_later request_login w1 = (Returned resp2, w2) ∧
    resp_workflow_id resp1 = "workflow_p1_1767603601" ∧
    resp_workflow_id resp2 = "workflow_p1_1767603601" ∧
    now_workflow_id env_down < now_workflow_id env_ok_later ∧
    resp_status resp1 = "failed" ∧ resp_status resp2 = "executing" ∧
    get_error env_ok_later = None ∧ find_one_error env_ok_later = None ∧
    redis w2 !! "workflow_p1_1767603601"
      = Some (cache_entry lib0 (resp_state resp2)) ∧
    get_workflow_status lib0 env_ok_later "workflow_p1_1767603601"
      (expire "workflow_p1_1767603601" w2)
      = (Returned (state_dict (resp_state resp1)),
         expire "workflow_p1_1767603601" w2) ∧
    state_dict (resp_state resp1) ≠ state_dict (resp_state resp2).
Proof.
  do 4 eexists.
  split.
  { apply start_workflow_returns; [|reflexivity..].
    by eapply workflow_ainvoke_analyzer_error. }
  split.
  { apply start_workflow_returns; [|reflexivity..].
    by eapply workflow_ainvoke_responses. }
  cbn [resp_workflow_id resp_status resp_state].
  split; [by vm_compute|]. split; [by vm_compute|].
  split; [by vm_compute|].
  split; [reflexivity|]. split; [reflexivity|].
  split; [reflexivity|]. split; [reflexivity|].
  split.
  { cbn [redis].
    replace (start_workflow_id env_ok_later request_login)
      with "workflow_p1_1767603601" by (by vm_compute).
    apply lookup_insert_eq. }
  split.
  { rewrite get_workflow_status_miss
      by (reflexivity || apply fast_miss_expire).
    cbn [expire workflows].
    erewrite first_with_id_app_found;
      [|apply first_with_id_app_fresh; [reflexivity|by vm_compute]].
    reflexivity. }
  intros Heq%state_dict_status. discriminate Heq.
Qed.

(** ** The listing *)

Global Instance newer_first_total : Total newer_first.
Proof. intros d1 d2. unfold newer_first. lia. Qed.

Global Instance newer_first_trans : Transitive newer_first.
Proof. intros d1 d2 d3. unfold newer_first. lia. Qed.

Lemma StronglySorted_take {A} (R : relation A) n l :
  StronglySorted R l → StronglySorted R (take n l).
Proof.
  intros Hl. rewrite <- (take_drop n l) in Hl.
  by apply StronglySorted_app in Hl as (_ & ? & _).
Qed.

Lemma StronglySorted_drop {A} (R : relation A) n l :
  StronglySorted R l → StronglySorted R (drop n l).
Proof.
  intros Hl. rewrite <- (take_drop n l) in Hl.
  by apply StronglySorted_app in Hl as (_ & _ & ?).
Qed.

(** What [to_list(length=limit)] gets from a cursor limited to [limit]. *)
Lemma take_cursor_limit limit docs :
  0 ≤ limit →
  take (Z.to_nat limit) (cursor_limit limit docs) = take (Z.to_nat limit) docs.
Proof.
  intros Hlimit. unfold cursor_limit. case_bool_decide as H0; [done|].
  rewrite take_take. f_equal. lia.
Qed.

Lemma page_of_sorted offset limit docs :
  StronglySorted newer_first (page_of offset limit docs).
Proof.
  apply StronglySorted_take, StronglySorted_drop.
  apply StronglySorted_merge_sort; apply _.
Qed.

Lemma page_of_length offset limit docs :
  0 ≤ limit → Z.of_nat (length (page_of offset limit docs)) ≤ limit.
Proof. intros Hlimit. unfold page_of. rewrite length_take. lia. Qed.

Lemma page_of_elem offset limit docs d :
  d ∈ page_of offset limit docs → d ∈ docs.
Proof.
  intros Hd. unfold page_of in Hd.
  apply subseteq_take, subseteq_drop in Hd.
  by rewrite merge_sort_Permutation in Hd.
Qed.

(** C8.  [list_workflows] returns or raises without touching the stores.
    It returns when [offset] and [limit] are not negative and MongoDB
    answers; the page then has at most [limit] documents, all of them
    documents of [workflows], newest [created_at] first, and [total] is the
    number of documents of [workflows], whatever [offset] and [limit] are.
    Otherwise it raises status 500. *)
Theorem list_workflows_page (e : env) (limit offset : Z) (w : world) :
  match list_workflows e limit offset w with
  | (Returned page, w') =>
      w' = w ∧
      Z.of_nat (length (page_workflows page)) ≤ limit ∧
      StronglySorted listed_newer_first (page_workflows page) ∧
      page_total page = Z.of_nat (length (workflows w)) ∧
      page_workflows page
        = stringify_id <$> page_of offset limit (workflows w) ∧
      (∀ d, d ∈ page_workflows page →
            ∃ d0, d0 ∈ workflows w ∧ d = stringify_id d0) ∧
      0 ≤ offset ∧ 0 ≤ limit ∧
      find_error e = None ∧ count_documents_error e = None
  | (Raised err, w') =>
      w' = w ∧
      (∃ msg, err = HTTPException 500 ("Error listing workflows: " +:+ msg)) ∧
      (offset < 0 ∨ limit < 0 ∨
       is_Some (find_error e) ∨ is_Some (count_documents_error e))
  end.
Proof.
  unfold list_workflows, try_except, bind, find_to_list, count_documents,
    store_call, raise, ret.
  case_bool_decide as Hoffset.
  { split; [done|]. split; [by eexists|]. by left. }
  case_bool_decide as Hlimit.
  { split; [done|]. split; [by eexists|]. right. by left. }
  destruct (find_error e) as [msg|] eqn:Hfind.
  { split; [done|]. split; [by eexists|]. right. right. left. by eexists. }
  destruct (count_documents_error e) as [msg|] eqn:Hcount.
  { split; [done|]. split; [by eexists|]. do 3 right. by eexists. }
  cbn [page_workflows page_total].
  unfold find_sort_skip_limit. rewrite take_cursor_limit by lia.
  fold (page_of offset limit (workflows w)).
  split; [done|].
  split; [rewrite length_fmap; apply page_of_length; lia|].
  split.
  { eapply StronglySorted_fmap; [|apply page_of_sorted]. by intros d1 d2. }
  split; [done|]. split; [done|].
  split.
  { intros d (d0 & -> & Hd0)%list_elem_of_fmap.
    exists d0. split; [by eapply page_of_elem|done]. }
  repeat split; lia.
Qed.

(** ** A first pass moves the status forward *)

(** In one pass from a draft state, every node that returns leaves the
    status of its own stage or ["failed"], and the two guarded nodes keep a
    failed state as it is. *)
Lemma first_pass_statuses ge s s1 s2 s3 :
  status s = "draft" →
  analyze_requirements (analyze_llm ge) s = Returned s1 →
  create_plan (plan_llm ge) s1 = Returned s2 →
  execute_tasks (execute_now ge) s2 = Returned s3 →
  (status s1 = "analyzed" ∨ status s1 = "failed") ∧
  (status s2 = "planned" ∨ status s2 = "failed") ∧
  (status s3 = "executing" ∨ status s3 = "failed") ∧
  (status s1 = "failed" → s2 = s1) ∧
  (status s2 = "failed" → s3 = s2).
Proof.
  intros _ H1 H2 H3. repeat split.
  - unfold analyze_requirements in H1.
    destruct (get_llm _ _ _); [|discriminate].
    destruct (ainvoke _); injection H1 as <-; auto.
  - unfold create_plan in H2. case_bool_decide as Hf.
    + injection H2 as <-. auto.
    + destruct (get_llm _ _ _); [|discriminate].
      destruct (ainvoke _); injection H2 as <-; auto.
  - unfold execute_tasks in H3. case_bool_decide as Hf.
    + injection H3 as <-. auto.
    + destruct (assign_loop _ _); injection H3 as <-; auto.
  - intros Hf. rewrite create_plan_failed in H2 by done. congruence.
  - intros Hf. rewrite execute_tasks_failed in H3 by done. congruence.
Qed.

(** ** Examples *)

Example split_on_sentences :
  split_on "." "Export invoices as PDF. Send them by mail"
  = ["Export invoices as PDF"; " Send them by mail"] ∧
  split_on "." "a.b..c" = ["a"; "b"; EmptyString; "c"] ∧
  split_on "." EmptyString = [EmptyString].
Proof. repeat split. Qed.

Example start_workflow_id_example :
  start_workflow_id env_ok request_login = "workflow_p1_1767603601".
Proof. vm_compute. reflexivity. Qed.

(** A task without ["status"] stops the loop with [KeyError]: the task
    before it stays assigned, the node records the failure. *)
Example execute_tasks_key_error :
  execute_tasks "2026-01-05T09:00:00" broken_state =
  Returned
    (set_status "failed"
       (append_error "Execution failed: 'status'"
          (set_tasks [assign 0 (sample_task 0); {[ "id" := PStr "task_x" ]};
                      sample_task 2] broken_state))).
Proof. vm_compute. reflexivity. Qed.

(** A second pass of [execute_tasks] over the five tasks assigns the next
    two, again to [agent_1] and [agent_2]. *)
Example assign_loop_second_batch :
  ∃ ts, assign_loop 0 assigned_sample_tasks = LoopEnd ts 2 ∧
        (λ t : gmap string pyval, (t !! "status", t !! "assigned_agent"))
          <$> ts =
        [ (Some (PStr "assigned"), Some (PStr "agent_1"));
          (Some (PStr "assigned"), Some (PStr "agent_2"));
          (Some (PStr "assigned"), Some (PStr "agent_1"));
          (Some (PStr "assigned"), Some (PStr "agent_2"));
          (Some (PStr "pending"), None) ].
Proof. eexists. split; vm_compute; reflexivity. Qed.

Example list_workflows_first_page :
  ∃ page, list_workflows env_ok 2 0 world_three = (Returned page, world_three) ∧
          listed_workflow_id <$> page_workflows page
            = ["workflow_p1_30"; "workflow_p1_20"] ∧
          listed_id <$> page_workflows page = ["a2"; "a1"] ∧
          page_total page = 3.
Proof. eexists. repeat split; vm_compute; reflexivity. Qed.

Example list_workflows_second_page :
  ∃ page, list_workflows env_ok 2 2 world_three = (Returned page, world_three) ∧
          listed_workflow_id <$> page_workflows page = ["workflow_p1_10"] ∧
          page_total page = 3.
Proof. eexists. repeat split; vm_compute; reflexivity. Qed.

Example list_workflows_limit_zero :
  ∃ page, list_workflows env_ok 0 0 world_three = (Returned page, world_three) ∧
          page_workflows page = [] ∧ page_total page = 3.
Proof. eexists. repeat split; vm_compute; reflexivity. Qed.

Example list_workflows_negative_limit :
  list_workflows env_ok (-1) 0 world_three =
  (Raised (HTTPException 500
             "Error listing workflows: length must be non-negative"),
   world_three).
Proof. vm_compute. reflexivity. Qed.

(** A value in Redis is used before MongoDB is asked, also when it does not
    decode. *)
Example get_workflow_status_warm :
  get_workflow_status lib0 env_ok "workflow_p1_1767603601" world_warm =
  (Raised (HTTPException 500 "Error retrieving workflow: Expecting value"),
   world_warm).
Proof. vm_compute. reflexivity. Qed.

Example get_workflow_status_cold :
  get_workflow_status lib0 env_ok "workflow_p1_1767603601"
    (expire "workflow_p1_1767603601" world_warm) =
  (Returned (state_dict failed_state),
   expire "workflow_p1_1767603601" world_warm).
Proof. vm_compute. reflexivity. Qed.

(** * Further properties of the service *)

(** ** More about the nodes and the graph *)

Lemma analyze_requirements_construct_error le s msg :
  construct_error le = Some msg → analyze_requirements le s = Raised msg.
Proof.
  intros Hc. unfold analyze_requirements, get_llm.
  rewrite bool_decide_eq_true_2 by reflexivity. by rewrite Hc.
Qed.

Lemma create_plan_construct_error le s msg :
  status s ≠ "failed" → construct_error le = Some msg →
  create_plan le s = Raised msg.
Proof.
  intros Hs Hc. unfold create_plan, get_llm.
  rewrite (bool_decide_eq_false_2 _ Hs).
  rewrite bool_decide_eq_true_2 by reflexivity. by rewrite Hc.
Qed.

Lemma execute_tasks_raise start_time s ts e :
  status s ≠ "failed" → assign_loop 0 (tasks s) = LoopRaise ts e →
  execute_tasks start_time s =
  Returned (set_status "failed"
              (append_error ("Execution failed: " +:+ e) (set_tasks ts s))).
Proof.
  intros Hs Hl. unfold execute_tasks.
  by rewrite (bool_decide_eq_false_2 _ Hs), Hl.
Qed.

(** X1.  A pass of the graph that returns ends in one of three ways.  Both
    nodes were answered: the state returned is executing and has the errors
    it started with.  The analysis failed, or the analysis was answered and
    the planning failed: the state returned is failed and has exactly one
    more error message, which names the node and carries the text of the
    exception.  No returned state has failed in [execute_tasks]. *)
Theorem workflow_ainvoke_outcome (ge : graph_env) (s s' : ProjectState) :
  workflow_ainvoke create_project_workflow ge s = Returned s' →
  (status s' = "executing" ∧ errors s' = errors s ∧
   (∃ content, ainvoke (analyze_llm ge) = LlmResponse content) ∧
   (∃ content, ainvoke (plan_llm ge) = LlmResponse content)) ∨
  (status s' = "failed" ∧
   ∃ msg, ainvoke (analyze_llm ge) = LlmError msg ∧
          errors s' = (errors s ++ ["Analysis failed: " +:+ msg])%list) ∨
  (status s' = "failed" ∧
   (∃ content, ainvoke (analyze_llm ge) = LlmResponse content) ∧
   ∃ msg, ainvoke (plan_llm ge) = LlmError msg ∧
          errors s' = (errors s ++ ["Planning failed: " +:+ msg])%list).
Proof.
  rewrite workflow_ainvoke_unfold.
  destruct (construct_error (analyze_llm ge)) as [e1|] eqn:Hc1.
  { by rewrite (analyze_requirements_construct_error _ _ _ Hc1). }
  destruct (ainvoke (analyze_llm ge)) as [c1|e1] eqn:Ha1.
  2:{ rewrite (analyze_requirements_error _ _ _ Hc1 Ha1), then_node_Returned.
      rewrite create_plan_failed by reflexivity.
      rewrite then_node_Returned, execute_tasks_failed by reflexivity.
      intros [= <-].
      right. left. split; [reflexivity|]. by eexists. }
  rewrite (analyze_requirements_response _ _ _ Hc1 Ha1), then_node_Returned.
  destruct (construct_error (plan_llm ge)) as [e2|] eqn:Hc2.
  { by rewrite (create_plan_construct_error _ _ e2); [|discriminate|done]. }
  destruct (ainvoke (plan_llm ge)) as [c2|e2] eqn:Ha2.
  2:{ rewrite (create_plan_error _ _ e2); [|discriminate|done..].
      rewrite then_node_Returned, execute_tasks_failed by reflexivity.
      intros [= <-].
      right. right. split; [reflexivity|]. split; [by eexists|].
      by eexists. }
  rewrite (create_plan_response _ _ c2); [|discriminate|done..].
  rewrite then_node_Returned.
  rewrite (execute_tasks_end _ _ assigned_sample_tasks 2);
    [|discriminate|apply assign_loop_sample_tasks].
  intros [= <-].
  left. split; [reflexivity|]. split; [reflexivity|]. split; by eexists.
Qed.

Lemma workflow_ainvoke_outcome_witness :
  ∃ s', workflow_ainvoke create_project_workflow (graph env_down) draft_state
          = Returned s' ∧
        status s' = "failed" ∧
        errors s' = (errors draft_state
                       ++ ["Analysis failed: Connection error."])%list.
Proof.
  assert (Hrun : ∃ s', workflow_ainvoke create_project_workflow
                         (graph env_down) draft_state = Returned s').
  { eexists. by eapply workflow_ainvoke_analyzer_error. }
  destruct Hrun as (s' & Hrun). exists s'. split; [exact Hrun|].
  destruct (workflow_ainvoke_outcome (graph env_down) draft_state s' Hrun)
    as [(_ & _ & (c & Hc) & _) | [(Hst & msg & Hmsg & Herr)
                                 | (_ & (c & Hc) & _)]];
    [discriminate Hc| |discriminate Hc].
  split; [exact Hst|]. rewrite Herr.
  by injection Hmsg as <-.
Defined.

Lemma same_outside_namespaces_refl s : same_outside_namespaces s s.
Proof. by repeat split. Qed.

Lemma same_outside_namespaces_trans s1 s2 s3 :
  same_outside_namespaces s1 s2 → same_outside_namespaces s2 s3 →
  same_outside_namespaces s1 s3.
Proof.
  intros (? & ? & ? & H12) (? & ? & ? & H23).
  repeat split; try congruence.
  intros k ? ? ?. rewrite H23, H12 by done. done.
Qed.

Lemma analyze_requirements_same le s s' :
  analyze_requirements le s = Returned s' → same_outside_namespaces s s'.
Proof.
  unfold analyze_requirements. destruct (get_llm _ _ _); [|discriminate].
  destruct (ainvoke le); intros [= <-]; repeat split.
  intros k Hk _ _. cbn [context set_current_phase set_status set_context].
  by rewrite lookup_insert_ne.
Qed.

Lemma create_plan_same le s s' :
  create_plan le s = Returned s' → same_outside_namespaces s s'.
Proof.
  unfold create_plan. case_bool_decide.
  { intros [= <-]. apply same_outside_namespaces_refl. }
  destruct (get_llm _ _ _); [|discriminate].
  destruct (ainvoke le); intros [= <-]; repeat split.
  intros k _ Hk _.
  cbn [context set_current_phase set_status set_context set_tasks].
  by rewrite lookup_insert_ne.
Qed.

Lemma execute_tasks_same start_time s s' :
  execute_tasks start_time s = Returned s' → same_outside_namespaces s s'.
Proof.
  unfold execute_tasks. case_bool_decide.
  { intros [= <-]. apply same_outside_namespaces_refl. }
  destruct (assign_loop _ _); intros [= <-]; repeat split.
  intros k _ _ Hk.
  cbn [context set_current_phase set_status set_context set_tasks].
  by rewrite lookup_insert_ne.
Qed.

(** A pass of the graph leaves alone what each of its nodes leaves alone. *)
Lemma workflow_ainvoke_same (ge : graph_env) (s s' : ProjectState) :
  workflow_ainvoke create_project_workflow ge s = Returned s' →
  same_outside_namespaces s s'.
Proof.
  rewrite workflow_ainvoke_unfold.
  destruct (analyze_requirements _ s) as [s1|] eqn:H1; [|discriminate].
  rewrite then_node_Returned.
  destruct (create_plan _ s1) as [s2|] eqn:H2; [|discriminate].
  rewrite then_node_Returned. intros H3.
  eapply same_outside_namespaces_trans;
    [eapply same_outside_namespaces_trans|].
  - by eapply analyze_requirements_same.
  - by eapply create_plan_same.
  - by eapply execute_tasks_same.
Qed.

Lemma ProjectState_eq s1 s2 :
  project_id s1 = project_id s2 → requirements s1 = requirements s2 →
  status s1 = status s2 → current_phase s1 = current_phase s2 →
  tasks s1 = tasks s2 → errors s1 = errors s2 →
  context s1 = context s2 → metadata s1 = metadata s2 → s1 = s2.
Proof. destruct s1, s2; simpl; intros; by subst. Qed.

Lemma context_pass_result ge s :
  context (pass_result ge s) =
  <["execution" := PDict (execution_of 2 (execute_now ge))]>
    (<["plan" := PDict plan]>
       (<["analysis" := PDict (analysis_of (requirements s))]> (context s))).
Proof. reflexivity. Qed.

Lemma requirements_pass_result ge s :
  requirements (pass_result ge s) = requirements s.
Proof. reflexivity. Qed.

Lemma pass_result_absorbs ge1 ge2 s :
  pass_result ge2 (pass_result ge1 s) = pass_result ge2 s.
Proof.
  apply ProjectState_eq; try reflexivity.
  rewrite !context_pass_result, requirements_pass_result.
  set (E1 := PDict (execution_of 2 (execute_now ge1))).
  set (E2 := PDict (execution_of 2 (execute_now ge2))).
  set (P := PDict plan). set (A := PDict (analysis_of (requirements s))).
  apply map_eq. intros k.
  destruct (decide (k = "execution")) as [->|Hex].
  { by rewrite !lookup_insert_eq. }
  rewrite !(lookup_insert_ne _ "execution" k) by done.
  destruct (decide (k = "plan")) as [->|Hplan].
  { by rewrite !lookup_insert_eq. }
  rewrite !(lookup_insert_ne _ "plan" k) by done.
  destruct (decide (k = "analysis")) as [->|Han].
  { by rewrite !lookup_insert_eq. }
  rewrite !(lookup_insert_ne _ "analysis" k) by done.
  rewrite !(lookup_insert_ne _ "execution" k) by done.
  rewrite !(lookup_insert_ne _ "plan" k) by done.
  by rewrite !(lookup_insert_ne _ "analysis" k) by done.
Qed.

(** X2.  When the model answers, a pass forgets what an earlier pass did:
    running the graph on the result of a pass gives the state that the
    second pass alone would have given.  The tasks are made anew and the
    first two assigned again, so however many passes have run, two tasks
    are assigned and three are pending. *)
Theorem workflow_ainvoke_twice
    (ge1 ge2 : graph_env) (s : ProjectState) (a1 p1 a2 p2 : string) :
  construct_error (analyze_llm ge1) = None →
  ainvoke (analyze_llm ge1) = LlmResponse a1 →
  construct_error (plan_llm ge1) = None →
  ainvoke (plan_llm ge1) = LlmResponse p1 →
  construct_error (analyze_llm ge2) = None →
  ainvoke (analyze_llm ge2) = LlmResponse a2 →
  construct_error (plan_llm ge2) = None →
  ainvoke (plan_llm ge2) = LlmResponse p2 →
  then_node (workflow_ainvoke create_project_workflow ge1 s)
            (workflow_ainvoke create_project_workflow ge2)
  = workflow_ainvoke create_project_workflow ge2 s ∧
  ∃ s', workflow_ainvoke create_project_workflow ge2 s = Returned s' ∧
        count_pending (tasks s') = 3%nat ∧ length (tasks s') = 5%nat.
Proof.
  intros Hc1 Ha1 Hd1 Hp1 Hc2 Ha2 Hd2 Hp2.
  rewrite (workflow_ainvoke_responses ge1 s a1 p1) by done.
  rewrite then_node_Returned.
  rewrite (workflow_ainvoke_responses ge2 _ a2 p2) by done.
  rewrite (workflow_ainvoke_responses ge2 s a2 p2) by done.
  split; [by rewrite pass_result_absorbs|].
  eexists. split; [reflexivity|].
  change (tasks (pass_result ge2 s)) with assigned_sample_tasks.
  split; [by vm_compute|reflexivity].
Qed.

Lemma workflow_ainvoke_twice_witness :
  then_node (workflow_ainvoke create_project_workflow graph_ok draft_state)
            (workflow_ainvoke create_project_workflow graph_ok)
  = workflow_ainvoke create_project_workflow graph_ok draft_state.
Proof.
  apply (workflow_ainvoke_twice graph_ok graph_ok draft_state
           "{}" "{}" "{}" "{}"); reflexivity.
Defined.

(** ** The loop of [execute_tasks] *)

Lemma task_step_assign n t :
  is_pending t = true → (n < 2)%nat → task_step t (assign n t).
Proof.
  intros Hp Hn. right. split; [done|]. unfold assign. split.
  { rewrite lookup_insert_ne by discriminate. apply lookup_insert_eq. }
  split.
  { rewrite lookup_insert_eq.
    destruct n as [|[|n]]; [left|right|lia]; reflexivity. }
  intros k Hk1 Hk2. by rewrite !lookup_insert_ne.
Qed.

Lemma has_status_step t t' : task_step t t' → has_status t → has_status t'.
Proof.
  intros [->|(_ & Hst & _)] Ht; [done|]. unfold has_status. by rewrite Hst.
Qed.

Lemma Forall2_task_step_refl ts : Forall2 task_step ts ts.
Proof. induction ts; constructor; [by left|done]. Qed.

(** The loop, whatever it returns: task by task it has done nothing or
    assigned a pending task; when it ends it has assigned as many tasks as
    were pending, up to the bound of two; when it raises, a task has no
    ["status"]. *)
Lemma assign_loop_spec n ts :
  (n < 2)%nat →
  match assign_loop n ts with
  | LoopEnd ts' n' =>
      Forall2 task_step ts ts' ∧
      n' = ((n + count_pending ts) `min` 2)%nat ∧
      (count_pending ts' + (n' - n) = count_pending ts)%nat
  | LoopRaise ts' e =>
      Forall2 task_step ts ts' ∧ e = "'status'" ∧
      Exists (λ t, t !! "status" = None) ts
  end.
Proof.
  revert n. induction ts as [|t ts IH]; intros n Hn; simpl.
  { split; [constructor|]. unfold count_pending. simpl. lia. }
  rewrite (count_pending_cons t ts).
  destruct (t !! "status") as [v|] eqn:Hst.
  2:{ split; [apply Forall2_task_step_refl|]. split; [done|]. by left. }
  assert (Hpend : is_pending t = py_eq_str v "pending").
  { unfold is_pending. by rewrite Hst. }
  rewrite Hpend. destruct (py_eq_str v "pending") eqn:Hp.
  - case_bool_decide as H2.
    + split.
      { constructor; [by apply task_step_assign|].
        apply Forall2_task_step_refl. }
      rewrite count_pending_cons, is_pending_assign. cbv iota. lia.
    + specialize (IH (S n) ltac:(lia)).
      destruct (assign_loop (S n) ts) as [ts1 n1|ts1 e1]; simpl.
      * destruct IH as (HF & -> & Hc). split.
        { constructor; [by apply task_step_assign|done]. }
        rewrite count_pending_cons, is_pending_assign. cbv iota. lia.
      * destruct IH as (HF & -> & Hex). split.
        { constructor; [by apply task_step_assign|done]. }
        split; [done|]. by right.
  - specialize (IH n Hn).
    destruct (assign_loop n ts) as [ts1 n1|ts1 e1]; simpl.
    + destruct IH as (HF & -> & Hc). split.
      { constructor; [by left|done]. }
      rewrite count_pending_cons, Hpend. cbv iota. lia.
    + destruct IH as (HF & -> & Hex). split.
      { constructor; [by left|done]. }
      split; [done|]. by right.
Qed.

Lemma assign_loop_has_status n ts :
  Forall has_status ts → ∃ ts' n', assign_loop n ts = LoopEnd ts' n'.
Proof.
  revert n. induction ts as [|t ts IH]; intros n Hts; simpl; [by eauto|].
  apply Forall_cons in Hts as [[v Hv] Hts]. rewrite Hv.
  destruct (py_eq_str v "pending").
  - case_bool_decide; [by eauto|].
    destruct (IH (S n) Hts) as (ts' & n' & ->). simpl. by eauto.
  - destruct (IH n Hts) as (ts' & n' & ->). simpl. by eauto.
Qed.

(** X3.  [execute_tasks] always returns, in one of three ways.  A failed
    state comes back as it is.  Otherwise, when the loop ends, the state is
    executing in phase ["development"], its errors are the same, the
    summary under ["execution"] counts as many tasks as were pending, two
    at most, and that many fewer tasks are pending.  Otherwise a task had
    no ["status"]: the state is failed, with the one message
    ["Execution failed: 'status'"] added, and neither the context nor the
    phase has changed. *)
Theorem execute_tasks_outcome (start_time : string) (s : ProjectState) :
  ∃ s', execute_tasks start_time s = Returned s' ∧
    ((status s = "failed" ∧ s' = s) ∨
     (status s ≠ "failed" ∧ status s' = "executing" ∧
      current_phase s' = "development" ∧ errors s' = errors s ∧
      context s' =
        <["execution" :=
            PDict (execution_of (count_pending (tasks s) `min` 2)
                     start_time)]> (context s) ∧
      count_pending (tasks s') = (count_pending (tasks s) - 2)%nat) ∨
     (status s ≠ "failed" ∧ status s' = "failed" ∧
      current_phase s' = current_phase s ∧
      errors s' = (errors s ++ ["Execution failed: 'status'"])%list ∧
      context s' = context s ∧
      Exists (λ t, t !! "status" = None) (tasks s))).
Proof.
  destruct (decide (status s = "failed")) as [Hs|Hs].
  { exists s. split; [by apply execute_tasks_failed|]. by left. }
  pose proof (assign_loop_spec 0 (tasks s) ltac:(lia)) as Hspec.
  destruct (assign_loop 0 (tasks s)) as [ts n|ts e] eqn:Hloop.
  - destruct Hspec as (_ & -> & Hc).
    eexists. split; [by eapply execute_tasks_end|].
    right. left. split; [done|]. do 3 (split; [reflexivity|]).
    split; [reflexivity|].
    cbn [tasks set_current_phase set_status set_context set_tasks].
    rewrite Nat.add_0_l in Hc. lia.
  - destruct Hspec as (_ & -> & Hex).
    eexists. split; [by eapply execute_tasks_raise|].
    right. right. split; [done|]. by do 4 (split; [reflexivity|]).
Qed.

(** X4.  Whatever [execute_tasks] returns, the tasks are the same in number
    and order, and each of them is either exactly as before or was pending
    and is now assigned: its ["status"] is ["assigned"], its
    ["assigned_agent"] is ["agent_1"] or ["agent_2"], and its other
    entries are untouched.  A task that was not pending is never changed,
    and no third agent is ever used. *)
Theorem execute_tasks_touches_pending_only
    (start_time : string) (s s' : ProjectState) :
  execute_tasks start_time s = Returned s' →
  Forall2 task_step (tasks s) (tasks s').
Proof.
  unfold execute_tasks. case_bool_decide as Hs.
  { intros [= <-]. apply Forall2_task_step_refl. }
  pose proof (assign_loop_spec 0 (tasks s) ltac:(lia)) as Hspec.
  destruct (assign_loop 0 (tasks s)) as [ts n|ts e];
    intros [= <-]; by destruct Hspec as [? _].
Qed.

Lemma execute_tasks_touches_pending_only_witness :
  Forall2 task_step sample_tasks assigned_sample_tasks.
Proof.
  apply (execute_tasks_touches_pending_only "2026-01-05T09:00:00"
           (set_tasks sample_tasks draft_state)
           (set_current_phase "development"
              (set_status "executing"
                 (set_context "execution"
                    (PDict (execution_of 2 "2026-01-05T09:00:00"))
                    (set_tasks assigned_sample_tasks
                       (set_tasks sample_tasks draft_state)))))).
  apply execute_tasks_end; [discriminate|apply assign_loop_sample_tasks].
Defined.

Lemma execute_tasks_step start_time s :
  status s ≠ "failed" → Forall has_status (tasks s) →
  ∃ s1, execute_tasks start_time s = Returned s1 ∧
        status s1 = "executing" ∧
        Forall2 task_step (tasks s) (tasks s1) ∧
        count_pending (tasks s1) = (count_pending (tasks s) - 2)%nat.
Proof.
  intros Hs Hts.
  destruct (assign_loop_has_status 0 _ Hts) as (ts & n & Hloop).
  pose proof (assign_loop_spec 0 (tasks s) ltac:(lia)) as Hspec.
  rewrite Hloop in Hspec. destruct Hspec as (Hstep & -> & Hc).
  eexists. split; [by eapply execute_tasks_end|].
  split; [reflexivity|]. split; [exact Hstep|].
  cbn [tasks set_current_phase set_status set_context set_tasks].
  rewrite Nat.add_0_l in Hc. lia.
Qed.

Lemma Forall2_task_step_has_status ts ts' :
  Forall2 task_step ts ts' → Forall has_status ts → Forall has_status ts'.
Proof.
  induction 1 as [|t t' ts ts' Hstep _ IH]; [done|].
  intros [Ht Hts]%Forall_cons. constructor; [|auto].
  by eapply has_status_step.
Qed.

(** X5.  Invoked again and again on a state that is not failed and whose
    tasks all have a ["status"], [execute_tasks] returns every time and
    works the pending tasks off two at a time: after [n] invocations,
    [2 * n] fewer tasks are pending (none, once that exceeds their
    number), and the number of tasks is the same. *)
Theorem execute_tasks_times_drains
    (n : nat) (start_time : string) (s : ProjectState) :
  status s ≠ "failed" → Forall has_status (tasks s) →
  ∃ s', execute_tasks_times n start_time s = Returned s' ∧
        status s' ≠ "failed" ∧
        count_pending (tasks s') = (count_pending (tasks s) - 2 * n)%nat ∧
        length (tasks s') = length (tasks s).
Proof.
  revert s. induction n as [|n IH]; intros s Hs Hts; simpl.
  { exists s. split; [done|]. split; [done|]. split; [lia|done]. }
  destruct (execute_tasks_step start_time s Hs Hts)
    as (s1 & Hrun & Hst & Hstep & Hc).
  rewrite Hrun, then_node_Returned.
  destruct (IH s1) as (s' & Hrun' & Hs' & Hc' & Hlen').
  { rewrite Hst. discriminate. }
  { by eapply Forall2_task_step_has_status. }
  exists s'. split; [done|]. split; [done|]. split; [lia|].
  rewrite Hlen'. symmetry. by eapply Forall2_length.
Qed.

Lemma execute_tasks_times_drains_witness :
  ∃ s', execute_tasks_times 3 "2026-01-05T09:00:00"
          (set_tasks sample_tasks draft_state) = Returned s' ∧
        count_pending (tasks s') = 0%nat ∧ length (tasks s') = 5%nat.
Proof.
  destruct (execute_tasks_times_drains 3 "2026-01-05T09:00:00"
              (set_tasks sample_tasks draft_state))
    as (s' & Hrun & _ & Hc & Hlen).
  - discriminate.
  - repeat constructor; by vm_compute; eexists.
  - exists s'. split; [exact Hrun|]. split; [|exact Hlen].
    rewrite Hc. by vm_compute.
Defined.

(** ** The features of an analysis *)

Lemma split_on_nonempty sep s : split_on sep s ≠ [].
Proof.
  destruct s as [|c s]; simpl; [done|].
  case_bool_decide; [done|]. by destruct (split_on sep s).
Qed.

Lemma join_cons sep piece pieces :
  pieces ≠ [] → join sep (piece :: pieces) = piece +:+ sep +:+ join sep pieces.
Proof. by destruct pieces. Qed.

Lemma join_String sep c piece pieces :
  join sep (String c piece :: pieces) = String c (join sep (piece :: pieces)).
Proof. by destruct pieces. Qed.

(** X6.  The features that [analyze_requirements] takes from the
    requirements, [requirements.split(".")]: there is one feature more than
    there are full stops (so always at least one, the empty string for
    empty requirements), no feature contains a full stop, and joining the
    features with full stops gives the requirements back. *)
Theorem split_on_round_trip (sep : ascii) (s : string) :
  length (split_on sep s) = S (count_char sep s) ∧
  Forall (λ piece, occurs sep piece = false) (split_on sep s) ∧
  join (String sep EmptyString) (split_on sep s) = s.
Proof.
  induction s as [|c s (IHlen & IHocc & IHjoin)].
  { split; [done|]. split; [by repeat constructor|done]. }
  pose proof (split_on_nonempty sep s) as Hne.
  cbn [split_on count_char]. case_bool_decide as Hc.
  - subst c. split; [simpl; by rewrite IHlen|]. split; [by constructor|].
    rewrite join_cons by done. by rewrite IHjoin.
  - destruct (split_on sep s) as [|p ps]; [done|].
    split; [simpl in *; lia|].
    apply Forall_cons in IHocc as [Hp Hps]. split.
    { constructor; [|done]. simpl. rewrite Hp.
      by rewrite bool_decide_eq_false_2. }
    by rewrite join_String, IHjoin.
Qed.

(** ** More about the endpoints *)

Lemma workflow_ainvoke_final_status ge s s' :
  workflow_ainvoke create_project_workflow ge s = Returned s' →
  status s' = "executing" ∨ status s' = "failed".
Proof.
  rewrite workflow_ainvoke_unfold.
  destruct (analyze_requirements _ s) as [s1|]; [|discriminate].
  rewrite then_node_Returned.
  destruct (create_plan _ s1) as [s2|]; [|discriminate].
  rewrite then_node_Returned. unfold execute_tasks.
  case_bool_decide as Hs; [intros [= <-]; by right|].
  destruct (assign_loop _ _); intros [= <-]; [by left|by right].
Qed.

(** X7.  What a request brings survives the pass.  The state in the
    response of [start_workflow] has the project identifier and the
    requirements of the request, the metadata made from it, and every entry
    of the request's context outside ["analysis"], ["plan"] and
    ["execution"]; the state [continue_workflow] returns differs from the
    stored one in none of these. *)
Theorem endpoints_keep_what_the_request_brought
    (lib : pylib) (e : env) (w w' : world) :
  (∀ request resp,
     start_workflow lib e request w = (Returned resp, w') →
     project_id (resp_state resp) = req_project_id request ∧
     requirements (resp_state resp) = req_requirements request ∧
     metadata (resp_state resp)
       = metadata (initial_state_of lib e request) ∧
     ∀ k : string, k ≠ "analysis" → k ≠ "plan" → k ≠ "execution" →
       context (resp_state resp) !! k
         = default ∅ (req_context request) !! k) ∧
  (∀ wid r,
     continue_workflow lib e wid w = (Returned r, w') →
     ∃ d, first_with_id wid (workflows w) = Some d ∧
          same_outside_namespaces (state d) (continued_state r)).
Proof.
  split.
  - intros request resp Hstart.
    apply start_workflow_inv in Hstart as (Hrun & _).
    apply workflow_ainvoke_same in Hrun as (Hp & Hr & Hm & Hc).
    rewrite Hp, Hr, Hm. repeat split. exact Hc.
  - intros wid r Hcont.
    apply continue_workflow_inv in Hcont as (d & Hd & Hrun & _).
    exists d. split; [done|]. by eapply workflow_ainvoke_same.
Qed.

(** X8.  [start_workflow] never touches a document that is already in
    [workflows].  When it returns, the collection is the old one with one
    document added at the end, holding the identifier and the state of the
    response, and Redis has the entry for that identifier, with a time to
    live of 3600 seconds.  When it raises, whatever the reason, the status
    is 500 and the collection is exactly as before. *)
Theorem start_workflow_appends_or_keeps
    (lib : pylib) (e : env) (request : WorkflowRequest) (w : world) :
  match start_workflow lib e request w with
  | (Returned resp, w') =>
      workflows w' = (workflows w ++ [new_doc e request (resp_state resp)])%list ∧
      workflow_id (new_doc e request (resp_state resp))
        = resp_workflow_id resp ∧
      redis w' !! resp_workflow_id resp
        = Some {| cached_value := json_dumps lib (state_dict (resp_state resp));
                  cached_ttl := 3600 |} ∧
      (∀ k, k ≠ resp_workflow_id resp → redis w' !! k = redis w !! k)
  | (Raised err, w') =>
      workflows w' = workflows w ∧
      ∃ msg, err = HTTPException 500 ("Workflow failed: " +:+ msg)
  end.
Proof.
  destruct (workflow_ainvoke create_project_workflow (graph e)
              (initial_state_of lib e request)) as [result|msg] eqn:Hrun.
  2:{ rewrite (start_workflow_graph_raises _ _ _ _ _ Hrun).
      split; [done|]. by eexists. }
  destruct (setex_error e) as [msg|] eqn:Hsetex.
  { rewrite (start_workflow_setex_raises _ _ _ _ _ _ Hrun Hsetex).
    split; [done|]. by eexists. }
  destruct (insert_one_error e) as [msg|] eqn:Hinsert.
  { rewrite (start_workflow_insert_one_raises _ _ _ _ _ _ Hrun Hsetex Hinsert).
    split; [done|]. by eexists. }
  rewrite (start_workflow_returns _ _ _ _ _ Hrun Hsetex Hinsert).
  cbn [workflows redis resp_workflow_id resp_state].
  split; [done|]. split; [done|].
  split; [apply lookup_insert_eq|].
  intros k Hk. by rewrite lookup_insert_ne.
Qed.

(** X9.  The response of a start is never in between.  Its status is the
    status of its state and is ["executing"] or ["failed"], and the next
    steps are those of that status; the third answer of the endpoint,
    ["Continue to next phase"], is never given. *)
Theorem start_workflow_response_status
    (lib : pylib) (e : env) (request : WorkflowRequest) (w w' : world)
    (resp : WorkflowResponse) :
  start_workflow lib e request w = (Returned resp, w') →
  resp_status resp = status (resp_state resp) ∧
  ((resp_status resp = "executing" ∧
    resp_next_steps resp
      = ["Monitor task execution"; "Assign agents to pending tasks"]) ∨
   (resp_status resp = "failed" ∧
    resp_next_steps resp = ["Review errors"; "Retry failed steps"])) ∧
  resp_next_steps resp ≠ ["Continue to next phase"].
Proof.
  intros Hstart.
  pose proof (start_workflow_inv _ _ _ _ _ _ Hstart) as (Hrun & Hs & Hi & _).
  rewrite (start_workflow_returns _ _ _ _ _ Hrun Hs Hi) in Hstart.
  injection Hstart as <- _. cbn [resp_status resp_state resp_next_steps].
  split; [done|].
  destruct (workflow_ainvoke_final_status _ _ _ Hrun) as [-> | ->].
  - split; [by left|]. by vm_compute.
  - split; [by right|]. by vm_compute.
Qed.

Lemma start_workflow_response_status_witness :
  ∃ resp w',
    start_workflow lib0 env_ok request_login world_empty = (Returned resp, w') ∧
    resp_status resp = "executing".
Proof.
  eexists _, _. split.
  { apply start_workflow_returns; [|reflexivity..].
    by eapply workflow_ainvoke_responses. }
  eapply (start_workflow_response_status lib0 env_ok request_login
            world_empty).
  apply start_workflow_returns; [|reflexivity..].
  by eapply workflow_ainvoke_responses.
Defined.

Lemma set_first_other wid st updated docs i d :
  docs !! i = Some d → workflow_id d ≠ wid →
  set_first wid st updated docs !! i = Some d.
Proof.
  revert i. induction docs as [|d' docs IH]; intros i; [done|]. simpl.
  case_bool_decide as Hid.
  - destruct i as [|i]; simpl; [|done]. intros [= ->]. by intros [].
  - destruct i as [|i]; simpl; [done|]. apply IH.
Qed.

(** X10.  [continue_workflow] never adds or removes a document, and never
    changes a document with another identifier: whether it returns or
    raises, [workflows] has as many documents as before and each document
    with another [workflow_id] is where and what it was.  When it raises,
    the status is 404 or 500 and Redis is as before. *)
Theorem continue_workflow_keeps_other_documents
    (lib : pylib) (e : env) (wid : string) (w : world) :
  length (workflows (continue_workflow lib e wid w).2)
    = length (workflows w) ∧
  (∀ i d, workflows w !! i = Some d → workflow_id d ≠ wid →
          workflows (continue_workflow lib e wid w).2 !! i = Some d) ∧
  match (continue_workflow lib e wid w).1 with
  | Returned r => continued_status r = "continued"
  | Raised err =>
      redis (continue_workflow lib e wid w).2 = redis w ∧
      (err = HTTPException 404 "Workflow not found" ∨
       ∃ msg, err = HTTPException 500 ("Error continuing workflow: " +:+ msg))
  end.
Proof.
  unfold continue_workflow, try_except, bind, lift, find_one, update_one,
    redis_setex, store_call, reraise_http, raise, ret.
  destruct (find_one_error e) as [m|]; cbn [fst snd].
  { split; [done|]. split; [done|]. split; [done|]. right. by eexists. }
  destruct (first_with_id wid (workflows w)) as [d0|]; cbn [fst snd].
  2:{ split; [done|]. split; [done|]. split; [done|]. by left. }
  destruct (workflow_ainvoke _ _ _) as [result|m]; cbn [fst snd].
  2:{ split; [done|]. split; [done|]. split; [done|]. right. by eexists. }
  destruct (update_one_error e) as [m|]; cbn [fst snd].
  { split; [done|]. split; [done|]. split; [done|]. right. by eexists. }
  destruct (setex_error e) as [m|]; cbn [fst snd workflows redis].
  - split; [apply set_first_length|].
    split; [intros i d; apply set_first_other|].
    split; [done|]. right. by eexists.
  - split; [apply set_first_length|].
    split; [intros i d; apply set_first_other|]. done.
Qed.

(** X11.  When [continue_workflow] returns, the document it found is
    updated in place: the first document with the identifier now holds the
    returned state and the time of the update as MongoDB keeps it, that is
    cut to the millisecond (at most 999 microseconds before the reading of
    the clock), and has kept its [_id], its [workflow_id], its [project_id]
    and its [created_at]. *)
Theorem continue_workflow_updates_in_place
    (lib : pylib) (e : env) (wid : string) (w w' : world) (r : continued) :
  continue_workflow lib e wid w = (Returned r, w') →
  ∃ d d',
    first_with_id wid (workflows w) = Some d ∧
    first_with_id wid (workflows w') = Some d' ∧
    state d' = continued_state r ∧
    updated_at d' = bson_datetime (now_updated_at e) ∧
    updated_at d' ≤ now_updated_at e < updated_at d' + 1000 ∧
    doc_id d' = doc_id d ∧ workflow_id d' = wid ∧
    doc_project_id d' = doc_project_id d ∧
    created_at d' = created_at d ∧
    redis w' !! wid = Some (cache_entry lib (continued_state r)).
Proof.
  intros Hcont.
  apply continue_workflow_inv in Hcont as (d & Hd & _ & ->).
  exists d. eexists. split; [done|].
  split; [by apply first_with_id_set_first|].
  cbn [state updated_at doc_id workflow_id doc_project_id created_at redis].
  do 2 (split; [reflexivity|]).
  split.
  { unfold bson_datetime.
    pose proof (Z.div_mod (now_updated_at e) 1000).
    pose proof (Z.mod_pos_bound (now_updated_at e) 1000). lia. }
  split; [reflexivity|].
  split.
  { clear -Hd. induction (workflows w) as [|d0 docs IH]; [done|].
    simpl in Hd. case_bool_decide; [by injection Hd as ->|auto]. }
  do 2 (split; [reflexivity|]). apply lookup_insert_eq.
Qed.


(** X12.  [continue_workflow] writes to MongoDB first and to Redis second.
    When the update went through and [setex] raises, the request fails with
    status 500 although the document already holds the new state, and the
    entry of Redis is the one from before; a read that follows is answered
    from that older entry and does not see the state MongoDB has. *)
Theorem continue_workflow_redis_failure
    (lib : pylib) (e e' : env) (wid : string) (w : world)
    (d : workflow_doc) (result : ProjectState) (msg : string) (c : cached) :
  find_one_error e = None → first_with_id wid (workflows w) = Some d →
  workflow_ainvoke create_project_workflow (graph e) (state d)
    = Returned result →
  update_one_error e = None → setex_error e = Some msg →
  redis w !! wid = Some c → cached_value c ≠ EmptyString →
  get_error e' = None →
  ∃ w',
    continue_workflow lib e wid w =
    (Raised (HTTPException 500 ("Error continuing workflow: " +:+ msg)), w') ∧
    state <$> first_with_id wid (workflows w') = Some result ∧
    redis w' = redis w ∧
    get_workflow_status lib e' wid w' =
    (match json_loads lib (cached_value c) with
     | Returned v => Returned v
     | Raised m =>
         Raised (HTTPException 500 ("Error retrieving workflow: " +:+ m))
     end, w').
Proof.
  intros Hfind Hd Hrun Hupdate Hsetex Hc Hne Hget.
  eexists. split.
  { unfold continue_workflow, try_except, bind, lift, find_one, update_one,
      redis_setex, store_call, reraise_http, raise.
    rewrite Hfind, Hd, Hrun, Hupdate, Hsetex. reflexivity. }
  split.
  { cbn [workflows]. by rewrite (first_with_id_set_first _ _ _ _ _ Hd). }
  split; [reflexivity|].
  by apply get_workflow_status_cached.
Qed.

Lemma continue_workflow_redis_failure_witness :
  ∃ w',
    continue_workflow lib0 env_redis_down "workflow_p1_1767603601" world_warm
    = (Raised (HTTPException 500
         "Error continuing workflow: Error 111 connecting to localhost:6379. Connection refused."),
       w') ∧
    state <$> first_with_id "workflow_p1_1767603601" (workflows w')
      = Some (pass_result graph_ok failed_state) ∧
    redis w' = redis world_warm.
Proof.
  destruct (continue_workflow_redis_failure lib0 env_redis_down env_ok
              "workflow_p1_1767603601" world_warm stored_doc
              (pass_result graph_ok failed_state)
              "Error 111 connecting to localhost:6379. Connection refused."
              {| cached_value := "not json"; cached_ttl := 3600 |})
    as (w' & Hcont & Hdoc & Hredis & _);
    [reflexivity|reflexivity|by eapply workflow_ainvoke_responses
    |reflexivity|reflexivity|reflexivity|discriminate|reflexivity|].
  exists w'. auto.
Defined.

(** X13.  A read right after a write is answered from Redis alone.  If
    [json.loads] gives back what [json.dumps] was given for the state just
    written, and that text is not empty, [get_workflow_status] returns the
    dictionary of the state that [start_workflow], or [continue_workflow],
    has just returned -- whether or not MongoDB could be read. *)
Theorem get_workflow_status_after_write
    (lib : pylib) (e : env) (w : world) (st : ProjectState) (wid : string) :
  get_error e = None →
  json_loads lib (json_dumps lib (state_dict st)) = Returned (state_dict st) →
  json_dumps lib (state_dict st) ≠ EmptyString →
  ((∃ e1 request w0 resp,
      start_workflow lib e1 request w0 = (Returned resp, w) ∧
      resp_workflow_id resp = wid ∧ resp_state resp = st) ∨
   (∃ e1 w0 r,
      continue_workflow lib e1 wid w0 = (Returned r, w) ∧
      continued_state r = st)) →
  get_workflow_status lib e wid w = (Returned (state_dict st), w).
Proof.
  intros Hget Hcodec Hne Hwrite.
  assert (Hc : redis w !! wid = Some (cache_entry lib st)).
  { destruct Hwrite as [(e1 & request & w0 & resp & Hstart & <- & <-)
                       |(e1 & w0 & r & Hcont & <-)].
    - apply start_workflow_inv in Hstart as (_ & _ & _ & -> & ->).
      apply lookup_insert_eq.
    - apply continue_workflow_inv in Hcont as (_ & _ & _ & ->).
      apply lookup_insert_eq. }
  rewrite (get_workflow_status_cached lib e wid w Hget _ Hc Hne).
  cbn [cache_entry cached_value]. by rewrite Hcodec.
Qed.

Lemma get_workflow_status_after_write_witness :
  ∃ resp w,
    start_workflow lib_echo env_ok request_login world_empty
      = (Returned resp, w) ∧
    resp_state resp = state_login ∧
    get_workflow_status lib_echo env_down (resp_workflow_id resp) w
      = (Returned (state_dict state_login), w).
Proof.
  assert (Hstart :
    start_workflow lib_echo env_ok request_login world_empty =
    (Returned {| resp_workflow_id := start_workflow_id env_ok request_login;
                 resp_status := status state_login;
                 resp_state := state_login;
                 resp_next_steps := next_steps_of (status state_login) |},
     {| redis := <[start_workflow_id env_ok request_login :=
                     cache_entry lib_echo state_login]> (redis world_empty);
        workflows := workflows world_empty ++
                     [new_doc env_ok request_login state_login] |})).
  { apply start_workflow_returns; [|reflexivity..].
    by eapply workflow_ainvoke_responses. }
  eexists _, _. split; [exact Hstart|]. split; [reflexivity|].
  apply (get_workflow_status_after_write lib_echo env_down _ state_login);
    [reflexivity|reflexivity|discriminate|].
  left. eexists _, _, _, _. split; [exact Hstart|]. split; reflexivity.
Defined.

(** X14.  [get_workflow_status] only reads: whatever it returns or raises,
    both stores are as before.  What it raises is status 404 or 500, and
    404 only when no store raised, Redis had nothing to return for the
    identifier and [workflows] has no document with it. *)
Theorem get_workflow_status_reads_only
    (lib : pylib) (e : env) (wid : string) (w : world) :
  (get_workflow_status lib e wid w).2 = w ∧
  ∀ err, (get_workflow_status lib e wid w).1 = Raised err →
    (err = HTTPException 404 "Workflow not found" ∧
     get_error e = None ∧ find_one_error e = None ∧
     fast_miss wid w ∧ first_with_id wid (workflows w) = None) ∨
    (∃ msg, err = HTTPException 500 ("Error retrieving workflow: " +:+ msg)).
Proof.
  unfold get_workflow_status, try_except, bind, lift, redis_get, find_one,
    store_call, reraise_http, raise, ret, fast_miss.
  destruct (get_error e) as [m|]; cbn [fst snd].
  { split; [done|]. intros err [= <-]. right. by eexists. }
  destruct (redis w !! wid) as [c|] eqn:Hc; cbn [fmap option_fmap option_map].
  - case_bool_decide as Hne.
    + destruct (json_loads lib (cached_value c)) as [v|m]; cbn [fst snd].
      * split; [done|]. intros err [=].
      * split; [done|]. intros err [= <-]. right. by eexists.
    + destruct (find_one_error e) as [m|]; cbn [fst snd].
      { split; [done|]. intros err [= <-]. right. by eexists. }
      destruct (first_with_id wid (workflows w)) as [d|]; cbn [fst snd].
      * split; [done|]. intros err [=].
      * split; [done|]. intros err [= <-]. left.
        do 3 (split; [done|]). split; [|done]. right.
        f_equal. by destruct (decide (cached_value c = EmptyString)).
  - destruct (find_one_error e) as [m|]; cbn [fst snd].
    { split; [done|]. intros err [= <-]. right. by eexists. }
    destruct (first_with_id wid (workflows w)) as [d|]; cbn [fst snd].
    + split; [done|]. intros err [=].
    + split; [done|]. intros err [= <-]. left.
      do 3 (split; [done|]). split; [by left|done].
Qed.

(** ** More about the listing *)

Lemma list_workflows_inv e limit offset w page w' :
  list_workflows e limit offset w = (Returned page, w') →
  0 ≤ offset ∧ 0 ≤ limit ∧ w' = w ∧
  page_workflows page = stringify_id <$> page_of offset limit (workflows w) ∧
  page_total page = Z.of_nat (length (workflows w)).
Proof.
  unfold list_workflows, try_except, bind, find_to_list, count_documents,
    store_call, raise, ret.
  case_bool_decide as Hoffset; [discriminate|].
  case_bool_decide as Hlimit; [discriminate|].
  destruct (find_error e); [discriminate|].
  destruct (count_documents_error e); [discriminate|].
  intros [= <- <-]. cbn [page_workflows page_total].
  unfold find_sort_skip_limit. rewrite take_cursor_limit by lia.
  repeat split; lia.
Qed.

Lemma created_at_inj_on (docs : list workflow_doc) d1 d2 :
  NoDup (created_at <$> docs) → d1 ∈ docs → d2 ∈ docs →
  created_at d1 = created_at d2 → d1 = d2.
Proof.
  induction docs as [|d docs IH]; [by intros _ ?%elem_of_nil|].
  rewrite fmap_cons, NoDup_cons.
  intros [Hd Hnd] [->|H1]%elem_of_cons [->|H2]%elem_of_cons Heq; auto.
  - destruct Hd. rewrite Heq. by apply list_elem_of_fmap_2.
  - destruct Hd. rewrite <- Heq. by apply list_elem_of_fmap_2.
Qed.

Lemma newer_first_sorted_unique (l1 l2 : list workflow_doc) :
  NoDup (created_at <$> l1) → l1 ≡ₚ l2 →
  StronglySorted newer_first l1 → StronglySorted newer_first l2 → l1 = l2.
Proof.
  revert l2. induction l1 as [|d1 l1 IH]; intros l2 Hnd Hperm Hs1 Hs2.
  { by apply Permutation_nil_l in Hperm. }
  destruct l2 as [|d2 l2]; [by apply Permutation_nil_r in Hperm|].
  apply StronglySorted_inv in Hs1 as [Hs1 Hall1].
  apply StronglySorted_inv in Hs2 as [Hs2 Hall2].
  assert (d1 = d2) as <-.
  { assert (H1 : d1 ∈ d2 :: l2) by (rewrite <- Hperm; left).
    assert (H2 : d2 ∈ d1 :: l1) by (rewrite Hperm; left).
    apply elem_of_cons in H1 as [?|H1]; [done|].
    apply elem_of_cons in H2 as [?|H2]; [done|].
    apply (created_at_inj_on (d1 :: l1)); [done|left|by right|].
    rewrite Forall_forall in Hall1, Hall2.
    specialize (Hall1 _ H2). specialize (Hall2 _ H1).
    unfold newer_first in *. lia. }
  f_equal. apply IH; [|by apply (inj (cons d1))|done..].
  rewrite fmap_cons in Hnd. by apply NoDup_cons in Hnd as [_ ?].
Qed.

(** X15.  Pages fit together, where no two stored documents have the same
    [created_at].  The sort then leaves one order only, so the three pages
    are the slices of any arrangement of the collection that is sorted by
    [created_at], newest first, whichever the server picks; and a page of
    [limit1] documents from [offset] followed by the page of [limit2]
    documents from [offset + limit1] is the page of [limit1 + limit2]
    documents from [offset]: while the collection stays the same, paging
    neither skips a document nor lists one twice.  (Among documents with
    the same [created_at] the server may order each query differently, and
    nothing of the kind holds.) *)
Theorem list_workflows_consecutive_pages
    (e1 e2 e3 : env) (limit1 limit2 offset : Z) (w w1 w2 w3 : world)
    (page1 page2 page : workflow_page) :
  NoDup (created_at <$> workflows w) →
  list_workflows e1 limit1 offset w = (Returned page1, w1) →
  list_workflows e2 limit2 (offset + limit1) w = (Returned page2, w2) →
  list_workflows e3 (limit1 + limit2) offset w = (Returned page, w3) →
  (∀ sorted, sorted ≡ₚ workflows w → StronglySorted newer_first sorted →
     page_workflows page1
       = stringify_id <$> take (Z.to_nat limit1) (drop (Z.to_nat offset) sorted) ∧
     page_workflows page2
       = stringify_id <$> take (Z.to_nat limit2)
                            (drop (Z.to_nat (offset + limit1)) sorted) ∧
     page_workflows page
       = stringify_id <$> take (Z.to_nat (limit1 + limit2))
                            (drop (Z.to_nat offset) sorted)) ∧
  page_workflows page = (page_workflows page1 ++ page_workflows page2)%list.
Proof.
  intros Hnd (Ho & Hl1 & _ & -> & _)%list_workflows_inv
         (_ & Hl2 & _ & -> & _)%list_workflows_inv
         (_ & _ & _ & -> & _)%list_workflows_inv.
  split.
  - intros sorted Hperm Hsorted.
    assert (sorted = merge_sort newer_first (workflows w)) as ->; [|done].
    apply newer_first_sorted_unique.
    + by rewrite Hperm.
    + by rewrite merge_sort_Permutation.
    + done.
    + apply (StronglySorted_merge_sort _).
  - rewrite <- fmap_app. f_equal. unfold page_of.
    rewrite !Z2Nat.inj_add by lia.
    rewrite <- take_take_drop. f_equal. by rewrite drop_drop.
Qed.

Lemma list_workflows_consecutive_pages_witness :
  NoDup (created_at <$> workflows world_three) ∧
  ∃ page1 page2 page,
    list_workflows env_ok 2 0 world_three = (Returned page1, world_three) ∧
    list_workflows env_ok 2 2 world_three = (Returned page2, world_three) ∧
    list_workflows env_ok 4 0 world_three = (Returned page, world_three) ∧
    page_workflows page = (page_workflows page1 ++ page_workflows page2)%list.
Proof.
  assert (Hnd : NoDup (created_at <$> workflows world_three)).
  { apply (bool_decide_unpack _). by vm_compute. }
  split; [exact Hnd|].
  eexists _, _, _.
  split; [by vm_compute|]. split; [by vm_compute|]. split; [by vm_compute|].
  apply (list_workflows_consecutive_pages env_ok env_ok env_ok 2 2 0
           world_three world_three world_three world_three);
    [exact Hnd|by vm_compute..].
Defined.

(** X16.  The ends of the listing.  A page from offset 0 with a limit of at
    least the number of documents lists every document of [workflows]
    exactly once; a page from an offset of at least that number is empty,
    and so is every page of limit 0. *)
Theorem list_workflows_ends
    (e : env) (limit offset : Z) (w w' : world) (page : workflow_page) :
  list_workflows e limit offset w = (Returned page, w') →
  (offset = 0 → Z.of_nat (length (workflows w)) ≤ limit →
   page_workflows page ≡ₚ stringify_id <$> workflows w) ∧
  (Z.of_nat (length (workflows w)) ≤ offset → page_workflows page = []) ∧
  (limit = 0 → page_workflows page = []).
Proof.
  intros (Ho & Hl & _ & -> & _)%list_workflows_inv. unfold page_of.
  split; [|split].
  - intros -> Hall. rewrite drop_0, take_ge.
    + by rewrite merge_sort_Permutation.
    + rewrite merge_sort_Permutation. lia.
  - intros Hbeyond. rewrite drop_ge; [by rewrite take_nil|].
    rewrite merge_sort_Permutation. lia.
  - by intros ->.
Qed.

Lemma list_workflows_ends_witness :
  ∃ page,
    list_workflows env_ok 10 0 world_three = (Returned page, world_three) ∧
    page_workflows page ≡ₚ stringify_id <$> workflows world_three.
Proof.
  eexists. split; [by vm_compute|].
  eapply (list_workflows_ends env_ok 10 0 world_three world_three);
    [by vm_compute|reflexivity|by vm_compute].
Defined.

(** ** The health check *)

(** X17.  [health_check] reports ["healthy"], with both stores
    ["connected"], exactly when both pings go through; otherwise it raises
    status 503 with the message of the ping that failed, the one of Redis
    when both fail, for MongoDB is pinged second.  It changes neither
    store. *)
Theorem health_check_outcome (lib : pylib) (h : health_env) (w : world) :
  (health_check lib h w).2 = w ∧
  match (health_check lib h w).1 with
  | Returned report =>
      redis_ping_error h = None ∧ mongo_ping_error h = None ∧
      health_status report = "healthy" ∧
      health_redis report = "connected" ∧
      health_mongodb report = "connected" ∧
      health_timestamp report = isoformat lib (now_health h)
  | Raised err =>
      ∃ msg, err = HTTPException 503 ("Service unhealthy: " +:+ msg) ∧
             (redis_ping_error h = Some msg ∨
              (redis_ping_error h = None ∧ mongo_ping_error h = Some msg))
  end.
Proof.
  unfold health_check, try_except, bind, ping, store_call, raise, ret.
  destruct (redis_ping_error h) as [m1|]; cbn [fst snd].
  { split; [done|]. eexists. split; [reflexivity|]. by left. }
  destruct (mongo_ping_error h) as [m2|]; cbn [fst snd].
  { split; [done|]. eexists. split; [reflexivity|]. by right. }
  by repeat split.
Qed.

Lemma endpoints_keep_what_the_request_brought_witness :
  ∃ resp w',
    start_workflow lib0 env_ok request_login world_empty = (Returned resp, w') ∧
    project_id (resp_state resp) = "p1" ∧
    requirements (resp_state resp) = "Build a login page.".
Proof.
  assert (Hstart : ∃ resp w',
    start_workflow lib0 env_ok request_login world_empty = (Returned resp, w')).
  { eexists _, _. apply start_workflow_returns; [|reflexivity..].
    by eapply workflow_ainvoke_responses. }
  destruct Hstart as (resp & w' & Hstart). exists resp, w'.
  split; [exact Hstart|].
  destruct (endpoints_keep_what_the_request_brought lib0 env_ok
              world_empty w') as [Hkeep _].
  destruct (Hkeep request_login resp Hstart) as (Hp & Hr & _). by split.
Defined.

Lemma continue_workflow_updates_in_place_witness :
  ∃ r w' d',
    continue_workflow lib0 env_ok "workflow_p1_1767603601" world_cold
      = (Returned r, w') ∧
    first_with_id "workflow_p1_1767603601" (workflows w') = Some d' ∧
    state d' = continued_state r ∧
    created_at d' = created_at stored_doc ∧ doc_id d' = doc_id stored_doc.
Proof.
  assert (Hcont : ∃ r w',
    continue_workflow lib0 env_ok "workflow_p1_1767603601" world_cold
      = (Returned r, w')).
  { eexists _, _.
    eapply (continue_workflow_returns lib0 env_ok _ _ stored_doc);
      [reflexivity|reflexivity| |reflexivity|reflexivity].
    by eapply workflow_ainvoke_responses. }
  destruct Hcont as (r & w' & Hcont).
  destruct (continue_workflow_updates_in_place lib0 env_ok _ _ _ _ Hcont)
    as (d & d' & Hd & Hd' & Hst & _ & _ & Hid & _ & _ & Hcr & _).
  assert (d = stored_doc) as -> by (by injection Hd as <-).
  exists r, w', d'. auto.
Defined.

(** X18.  The identifier of a workflow tells requests for one project apart
    by the second, not by the request.  For clocks read between the epoch
    and [2 ^ 34] seconds after it, where [int(datetime.now().timestamp())]
    is the whole second of the reading, two starts for the same project
    return the same [workflow_id] exactly when their clocks, read for the
    identifier, show the same whole second. *)
Theorem start_workflow_id_per_second
    (lib : pylib) (e1 e2 : env) (request1 request2 : WorkflowRequest)
    (w1 w1' w2 w2' : world) (resp1 resp2 : WorkflowResponse) :
  0 ≤ now_workflow_id e1 < 2 ^ 34 * 1000000 →
  0 ≤ now_workflow_id e2 < 2 ^ 34 * 1000000 →
  start_workflow lib e1 request1 w1 = (Returned resp1, w1') →
  start_workflow lib e2 request2 w2 = (Returned resp2, w2') →
  req_project_id request1 = req_project_id request2 →
  resp_workflow_id resp1 = resp_workflow_id resp2 ↔
  now_workflow_id e1 `quot` 1000000 = now_workflow_id e2 `quot` 1000000.
Proof.
  intros _ _ (_ & _ & _ & -> & _)%start_workflow_inv
         (_ & _ & _ & -> & _)%start_workflow_inv Hproject.
  unfold start_workflow_id, timestamp_int, str_int. rewrite Hproject.
  split.
  - intros Hid. do 3 apply (inj (String.app _)) in Hid.
    by apply (inj pretty) in Hid.
  - by intros ->.
Qed.

Lemma start_workflow_id_per_second_witness :
  0 ≤ now_workflow_id env_ok < 2 ^ 34 * 1000000 ∧
  0 ≤ now_workflow_id env_down < 2 ^ 34 * 1000000 ∧
  ∃ resp1 resp2 w1 w2,
    start_workflow lib0 env_ok request_login world_empty
      = (Returned resp1, w1) ∧
    start_workflow lib0 env_down request_login w1 = (Returned resp2, w2) ∧
    resp_workflow_id resp1 = resp_workflow_id resp2.
Proof.
  assert (Hr1 : 0 ≤ now_workflow_id env_ok < 2 ^ 34 * 1000000)
    by (by vm_compute).
  assert (Hr2 : 0 ≤ now_workflow_id env_down < 2 ^ 34 * 1000000)
    by (by vm_compute).
  split; [exact Hr1|]. split; [exact Hr2|].
  assert (H1 : ∃ resp1 w1,
    start_workflow lib0 env_ok request_login world_empty
      = (Returned resp1, w1)).
  { eexists _, _. apply start_workflow_returns; [|reflexivity..].
    by eapply workflow_ainvoke_responses. }
  destruct H1 as (resp1 & w1 & H1).
  assert (H2 : ∃ resp2 w2,
    start_workflow lib0 env_down request_login w1 = (Returned resp2, w2)).
  { eexists _, _. apply start_workflow_returns; [|reflexivity..].
    by eapply workflow_ainvoke_analyzer_error. }
  destruct H2 as (resp2 & w2 & H2).
  exists resp1, resp2, w1, w2. split; [exact H1|]. split; [exact H2|].
  by apply (start_workflow_id_per_second lib0 env_ok env_down
              request_login request_login world_empty w1 w1 w2 resp1 resp2
              Hr1 Hr2 H1 H2 eq_refl).
Defined.
